(** * GeneratorTransformPass: the yield-factoring rewriter and the driver

    A shallow embedding of [src/codegeneration/GeneratorTransformPass.js].

    Parse trees are JavaScript objects.  Two things about them matter to the
    pass and are kept in the embedding: every tree has an identity (the pass
    tests [body === tree.functionBody]) and every tree carries a [location].
    Constructing a tree ([new ...], [createBlock], ...) allocates a new
    identity; the allocator is threaded through a small monad which also
    carries exceptions ([TypeError] on reading a property of [undefined]) and
    the record of the sub-passes that were invoked. *)

From Stdlib Require Import List String Bool Arith Lia.
Import ListNotations.
Open Scope string_scope.
Open Scope list_scope.
Open Scope nat_scope.

Set Implicit Arguments.

(** ** Parse trees *)

(** A source range, as two offsets. *)
Definition SourceRange : Type := (nat * nat)%type.

(** What every tree object has: its identity and its [location] field
    ([None] is JavaScript's [null]). *)
Record Meta : Type := mkMeta { oid : nat; location : option SourceRange }.

(** [TokenType] constants are strings in the compiler. *)
Definition TokenType : Type := string.
Definition EQUAL : TokenType := "=".
Definition VAR : TokenType := "var".
Definition LET : TokenType := "let".
Definition CONST : TokenType := "const".

(** Trees nest through [list] and [option]; these give the induction
    principles of the tree types their hypotheses on the nested children. *)
Scheme All for list.
Scheme All for option.

Inductive ParseTree : Type :=
| ParenExpression (m : Meta) (expression : ParseTree)
| CommaExpression (m : Meta) (expressions : list ParseTree)
| BinaryOperator (m : Meta) (left : ParseTree) (operator : TokenType)
                 (right : ParseTree)
| YieldExpression (m : Meta) (expression : option ParseTree) (isYieldFor : bool)
| IdentifierExpression (m : Meta) (identifierToken : string)
| MemberExpression (m : Meta) (operand : ParseTree) (memberName : string)
| ExpressionStatement (m : Meta) (expression : ParseTree)
| VariableStatement (m : Meta) (declarations : VariableDeclarationList)
| ReturnStatement (m : Meta) (expression : option ParseTree)
| Block (m : Meta) (statements : list ParseTree)
| ForInStatement (m : Meta) (initialiser collection body : ParseTree)
| AwaitStatement (m : Meta) (identifier : option string) (expression : ParseTree)
| FunctionDeclaration (m : Meta) (name : option ParseTree) (isGenerator : bool)
                      (formalParameterList : ParseTree)
                      (typeAnnotation : option ParseTree)
                      (annotations : list ParseTree)
                      (functionBody : FunctionBody)
| FunctionExpression (m : Meta) (name : option ParseTree) (isGenerator : bool)
                     (formalParameterList : ParseTree)
                     (typeAnnotation : option ParseTree)
                     (annotations : list ParseTree)
                     (functionBody : FunctionBody)
| GetAccessor (m : Meta) (isStatic : bool) (name : ParseTree)
              (typeAnnotation : option ParseTree)
              (annotations : list ParseTree) (body : FunctionBody)
| SetAccessor (m : Meta) (isStatic : bool) (name : ParseTree)
              (parameter : ParseTree)
              (annotations : list ParseTree) (body : FunctionBody)
| OtherTree (m : Meta) (type : string) (children : list ParseTree)
with VariableDeclarationList : Type :=
| MkVariableDeclarationList (m : Meta) (declarationType : TokenType)
                            (declarations : list VariableDeclaration)
with VariableDeclaration : Type :=
| MkVariableDeclaration (m : Meta) (lvalue : ParseTree)
                        (typeAnnotation : option ParseTree)
                        (initialiser : option ParseTree)
with FunctionBody : Type :=
| MkFunctionBody (m : Meta) (statements : list ParseTree).

Scheme ParseTree_mut := Induction for ParseTree Sort Prop
with VariableDeclarationList_mut := Induction for VariableDeclarationList Sort Prop
with VariableDeclaration_mut := Induction for VariableDeclaration Sort Prop
with FunctionBody_mut := Induction for FunctionBody Sort Prop.

Combined Scheme ParseTree_mutind from ParseTree_mut,
  VariableDeclarationList_mut, VariableDeclaration_mut, FunctionBody_mut.

(** [OtherTree] stands for every kind of tree the pass has no case for (an
    if statement, a call, an object literal, ...): its kind and its children
    in order. *)

Definition meta (tree : ParseTree) : Meta :=
  match tree with
  | ParenExpression m _ | CommaExpression m _ | BinaryOperator m _ _ _
  | YieldExpression m _ _ | IdentifierExpression m _ | MemberExpression m _ _
  | ExpressionStatement m _ | VariableStatement m _ | ReturnStatement m _
  | Block m _ | ForInStatement m _ _ _ | AwaitStatement m _ _
  | FunctionDeclaration m _ _ _ _ _ _ | FunctionExpression m _ _ _ _ _ _
  | GetAccessor m _ _ _ _ _ | SetAccessor m _ _ _ _ _ | OtherTree m _ _ => m
  end.

Definition bodyMeta (b : FunctionBody) : Meta :=
  match b with MkFunctionBody m _ => m end.

Definition bodyStatements (b : FunctionBody) : list ParseTree :=
  match b with MkFunctionBody _ s => s end.

(** [a === b] on two tree objects. *)
Definition sameTree (a b : ParseTree) : bool :=
  Nat.eqb (oid (meta a)) (oid (meta b)).
Definition sameBody (a b : FunctionBody) : bool :=
  Nat.eqb (oid (bodyMeta a)) (oid (bodyMeta b)).

(** The [type] tags the source compares against. *)
Definition isYieldExpression (tree : ParseTree) : bool :=
  match tree with YieldExpression _ _ _ => true | _ => false end.
Definition isBinaryOperator (tree : ParseTree) : bool :=
  match tree with BinaryOperator _ _ _ _ => true | _ => false end.

(** ** The monad of the pass *)

Inductive JsError : Type := TypeError.

Inductive Completion (A : Type) : Type :=
| Normal (a : A)
| Throw (e : JsError).
Arguments Throw {A} e.

(** The sub-passes the driver hands a body to, with the body handed over. *)
Inductive Call : Type :=
| ForInLowering (body : FunctionBody)
| YieldFactoring (body : FunctionBody)
| GeneratorBuilder (body : FunctionBody)
| AsyncBuilder (body : FunctionBody).

(** A computation takes the next free identity and gives a completion, the
    next free identity afterwards and the sub-passes it invoked, in order. *)
Definition M (A : Type) : Type := nat -> Completion A * nat * list Call.

Definition ret {A} (a : A) : M A := fun n => (Normal a, n, []).

Definition throw {A} (e : JsError) : M A := fun n => (Throw e, n, []).

Definition bind {A B} (c : M A) (k : A -> M B) : M B :=
  fun n =>
    match c n with
    | (Normal a, n1, l1) =>
        match k a n1 with (r, n2, l2) => (r, n2, l1 ++ l2) end
    | (Throw e, n1, l1) => (Throw e, n1, l1)
    end.

Notation "x <- c ;; k" := (bind c (fun x => k))
  (at level 61, c at next level, right associativity).

(** [new K(location, ...)]: the next identity is taken for the new object. *)
Definition new {A} (location : option SourceRange) (K : Meta -> A) : M A :=
  fun n => (Normal (K (mkMeta n location)), S n, []).

(** A collaborating pass allocates and may throw, and is recorded when the
    driver invokes it. *)
Definition Pass : Type := FunctionBody -> nat -> Completion FunctionBody * nat.

Definition invoke (c : Call) (p : nat -> Completion FunctionBody * nat)
  : M FunctionBody :=
  fun n => match p n with (r, n1) => (r, n1, [c]) end.

(** ** ParseTreeFactory *)

Module ParseTreeFactory.

(** Modelled from the spec: [./ParseTreeFactory] is not among the sources.
    The spec calls its functions tree-node construction helpers; each one
    builds the node it is named after, with no source location. *)
Definition createExpressionStatement (expression : ParseTree) : M ParseTree :=
  new None (fun m => ExpressionStatement m expression).

(** Modelled from the spec: see [createExpressionStatement]. *)
Definition createCommaExpression (expressions : list ParseTree) : M ParseTree :=
  new None (fun m => CommaExpression m expressions).

(** Modelled from the spec: an assignment is the binary operator [=]. *)
Definition createAssignmentExpression (lhs rhs : ParseTree) : M ParseTree :=
  new None (fun m => BinaryOperator m lhs EQUAL rhs).

(** Modelled from the spec: see [createExpressionStatement]. *)
Definition createBlock (statements : list ParseTree) : M ParseTree :=
  new None (fun m => Block m statements).

(** Modelled from the spec: see [createExpressionStatement]. *)
Definition createReturnStatement (expression : ParseTree) : M ParseTree :=
  new None (fun m => ReturnStatement m (Some expression)).

(** Modelled from the spec: the member access [operand.memberName], both
    given as strings; the operand becomes an identifier expression. *)
Definition createMemberExpression (operand memberName : string) : M ParseTree :=
  o <- new None (fun m => IdentifierExpression m operand) ;;
  new None (fun m => MemberExpression m o memberName).

(** Modelled from the spec: a declarator of [lvalue] with an initialiser
    and no type annotation. *)
Definition createVariableDeclaration (lvalue initialiser : ParseTree)
  : M VariableDeclaration :=
  new None (fun m => MkVariableDeclaration m lvalue None (Some initialiser)).

(** Modelled from the spec: see [createExpressionStatement]. *)
Definition createVariableDeclarationList (binding : TokenType)
    (declarations : list VariableDeclaration) : M VariableDeclarationList :=
  new None (fun m => MkVariableDeclarationList m binding declarations).

(** Modelled from the spec: see [createExpressionStatement]. *)
Definition createVariableStatement (declarations : VariableDeclarationList)
  : M ParseTree :=
  new None (fun m => VariableStatement m declarations).

(** Modelled from the spec: see [createExpressionStatement]. *)
Definition createFunctionBody (statements : list ParseTree) : M FunctionBody :=
  new None (fun m => MkFunctionBody m statements).

End ParseTreeFactory.
Import ParseTreeFactory.

(** Modelled from the spec: [./generator/isYieldAssign] is not among the
    sources.  The spec's shape is an assignment [L = S] whose right-hand side
    [S] is a suspend expression. *)
Definition isYieldAssign (tree : ParseTree) : bool :=
  match tree with
  | BinaryOperator _ _ operator rhs =>
      String.eqb operator EQUAL && isYieldExpression rhs
  | _ => false
  end.

(** ** YieldExpressionTransformer *)

Module YieldExpressionTransformer.

(** [factor_(expression, wrap)], lines 152-156. *)
Definition factor_ (expression : ParseTree) (wrap : ParseTree -> M ParseTree)
  : M ParseTree :=
  s <- createExpressionStatement expression ;;
  sent <- createMemberExpression "$ctx" "sent" ;;
  w <- wrap sent ;;
  createBlock [s; w].

(** [factorAssign_(lhs, rhs, wrap)], lines 130-134. *)
Definition factorAssign_ (lhs rhs : ParseTree)
    (wrap : ParseTree -> ParseTree -> M ParseTree) : M ParseTree :=
  factor_ rhs (fun ident => wrap lhs ident).

(** The loop of lines 75-77. *)
Fixpoint stripParens (e : ParseTree) : ParseTree :=
  match e with
  | ParenExpression _ expression => stripParens expression
  | _ => e
  end.

(** [commaWrap], lines 79-83; [ex] is the variable it closes over. *)
Definition commaWrap (ex : list ParseTree) (lhs rhs : ParseTree) : M ParseTree :=
  a <- createAssignmentExpression lhs rhs ;;
  c <- createCommaExpression (a :: List.tl ex) ;;
  createExpressionStatement c.

(** [transformExpressionStatement(tree)], lines 69-93.  The [switch] has
    the single case [COMMA_EXPRESSION]; [ex[0]] of an empty array is
    [undefined], whose [type] cannot be read.  The method is declared for
    expression statements; the last case closes the match on other trees. *)
Definition transformExpressionStatement (tree : ParseTree) : M ParseTree :=
  match tree with
  | ExpressionStatement _ expression =>
      let e := stripParens expression in
      match e with
      | CommaExpression _ ex =>
          match ex with
          | [] => throw TypeError
          | ex0 :: _ =>
              match ex0 with
              | BinaryOperator _ ex0_left _ ex0_right =>
                  if isYieldAssign ex0
                  then factorAssign_ ex0_left ex0_right (commaWrap ex)
                  else ret tree
              | _ => ret tree
              end
          end
      | _ => ret tree
      end
  | _ => throw TypeError
  end.

(** [isYieldVarAssign], lines 98-100. *)
Definition isYieldVarAssign (tree : VariableDeclaration) : bool :=
  match tree with
  | MkVariableDeclaration _ _ _ (Some initialiser) =>
      isYieldExpression initialiser
  | MkVariableDeclaration _ _ _ None => false
  end.

(** [varWrap], lines 102-107; it closes over [tree] and [tdd]. *)
Definition varWrap (declarationType : TokenType)
    (tdd : list VariableDeclaration) (lhs rhs : ParseTree) : M ParseTree :=
  d <- createVariableDeclaration lhs rhs ;;
  l <- createVariableDeclarationList declarationType (d :: List.tl tdd) ;;
  createVariableStatement l.

(** [transformVariableStatement(tree)], lines 95-113. *)
Definition transformVariableStatement (tree : ParseTree) : M ParseTree :=
  match tree with
  | VariableStatement _ (MkVariableDeclarationList _ declarationType tdd) =>
      match tdd with
      | [] => throw TypeError
      | MkVariableDeclaration _ lvalue _ initialiser as tdd0 :: _ =>
          match initialiser with
          | Some init =>
              if isYieldVarAssign tdd0
              then factorAssign_ lvalue init (varWrap declarationType tdd)
              else ret tree
          | None => ret tree
          end
      end
  | _ => throw TypeError
  end.

(** [transformReturnStatement(tree)], lines 115-119. *)
Definition transformReturnStatement (tree : ParseTree) : M ParseTree :=
  match tree with
  | ReturnStatement _ (Some expression) =>
      if isYieldExpression expression
      then factor_ expression createReturnStatement
      else ret tree
  | ReturnStatement _ None => ret tree
  | _ => throw TypeError
  end.

End YieldExpressionTransformer.

(** ** Collaborators of the driver *)

(** [transformOptions], from [../options]. *)
Record TransformOptions : Type :=
  { generators : bool; deferredFunctions : bool }.

(** What the driver reads of a [YieldFinder] object. *)
Record YieldFinder : Type :=
  { hasYield : bool; hasAwait : bool; hasForIn : bool }.

(** The three methods [YieldExpressionTransformer] overrides in the
    inherited tree transformer. *)
Record Overrides : Type :=
  { onExpressionStatement : ParseTree -> M ParseTree;
    onVariableStatement : ParseTree -> M ParseTree;
    onReturnStatement : ParseTree -> M ParseTree }.

Definition YieldExpressionTransformer_methods : Overrides :=
  {| onExpressionStatement := YieldExpressionTransformer.transformExpressionStatement;
     onVariableStatement := YieldExpressionTransformer.transformVariableStatement;
     onReturnStatement := YieldExpressionTransformer.transformReturnStatement |}.

(** A JavaScript argument that may be left out: [None] is [undefined]. *)
Definition truthy (flag : option bool) : bool :=
  match flag with Some b => b | None => false end.

(** Reading a property of [finder], which is [undefined] until assigned. *)
Definition defined {A} (x : option A) : M A :=
  match x with Some a => ret a | None => throw TypeError end.

(** ** GeneratorTransformPass *)

Module GeneratorTransformPass.
Section Driver.

Variable transformOptions : TransformOptions.
(** [new YieldFinder(tree)]. *)
Variable newYieldFinder : FunctionBody -> YieldFinder.
(** [new ForInTransformPass(...).transformAny]. *)
Variable ForInTransformPass_transformAny : Pass.
(** [transformAny] as a transformer inherits it, given its overrides. *)
Variable inherited_transformAny : Overrides -> Pass.
(** [GeneratorTransformer.transformGeneratorBody]. *)
Variable GeneratorTransformer_transformGeneratorBody : Pass.
(** [AsyncTransformer.transformAsyncBody]. *)
Variable AsyncTransformer_transformAsyncBody : Pass.

Section Methods.

(** [super.transformFunctionBody]. *)
Variable super_transformFunctionBody : FunctionBody -> M FunctionBody.

(** Lines 220-242 of [transformBody_]: what follows the two early
    returns. *)
Definition transformBody_lowering (finder : option YieldFinder)
    (isGenerator : option bool) (body : FunctionBody) : M FunctionBody :=
  f <- defined finder ;;
  body <- (if hasForIn f &&
              (generators transformOptions ||
               deferredFunctions transformOptions)
           then invoke (ForInLowering body)
                       (ForInTransformPass_transformAny body)
           else ret body) ;;
  if hasYield f || truthy isGenerator then
    if generators transformOptions then
      body <- invoke (YieldFactoring body)
                (inherited_transformAny YieldExpressionTransformer_methods
                                        body) ;;
      invoke (GeneratorBuilder body)
             (GeneratorTransformer_transformGeneratorBody body)
    else ret body
  else if deferredFunctions transformOptions then
    invoke (AsyncBuilder body) (AsyncTransformer_transformAsyncBody body)
  else ret body.

(** [transformBody_(tree, isGenerator)], lines 206-243. *)
Definition transformBody_ (tree : FunctionBody) (isGenerator : option bool)
  : M FunctionBody :=
  body <- super_transformFunctionBody tree ;;
  if truthy isGenerator || deferredFunctions transformOptions then
    let finder := newYieldFinder tree in
    if negb (hasYield finder || truthy isGenerator || hasAwait finder)
    then ret body
    else transformBody_lowering (Some finder) isGenerator body
  else if negb (truthy isGenerator) then ret body
  else transformBody_lowering None isGenerator body.

(** [transformFunction_(tree, constructor)], lines 189-200. *)
Definition transformFunction_ (tree : ParseTree)
    (constructor : Meta -> option ParseTree -> bool -> ParseTree ->
                   option ParseTree -> list ParseTree -> FunctionBody ->
                   ParseTree) : M ParseTree :=
  match tree with
  | FunctionDeclaration _ name isGenerator formalParameterList
                        typeAnnotation annotations functionBody
  | FunctionExpression _ name isGenerator formalParameterList
                       typeAnnotation annotations functionBody =>
      body <- transformBody_ functionBody (Some isGenerator) ;;
      if sameBody body functionBody then ret tree
      else
        let isGenerator := false in
        new None (fun m => constructor m name isGenerator
                             formalParameterList typeAnnotation
                             annotations body)
  | _ => throw TypeError
  end.

(** [transformFunctionDeclaration(tree)], lines 177-179. *)
Definition transformFunctionDeclaration (tree : ParseTree) : M ParseTree :=
  transformFunction_ tree FunctionDeclaration.

(** [transformFunctionExpression(tree)], lines 185-187. *)
Definition transformFunctionExpression (tree : ParseTree) : M ParseTree :=
  transformFunction_ tree FunctionExpression.

(** [transformGetAccessor(tree)], lines 249-261. *)
Definition transformGetAccessor (tree : ParseTree) : M ParseTree :=
  match tree with
  | GetAccessor m isStatic name typeAnnotation annotations body0 =>
      body <- transformBody_ body0 None ;;
      if sameBody body body0 then ret tree
      else new (location m)
               (fun m' => GetAccessor m' isStatic name typeAnnotation
                            annotations body)
  | _ => throw TypeError
  end.

(** [transformSetAccessor(tree)], lines 267-279. *)
Definition transformSetAccessor (tree : ParseTree) : M ParseTree :=
  match tree with
  | SetAccessor m isStatic name parameter annotations body0 =>
      body <- transformBody_ body0 None ;;
      if sameBody body body0 then ret tree
      else new (location m)
               (fun m' => SetAccessor m' isStatic name parameter
                            annotations body)
  | _ => throw TypeError
  end.

End Methods.

(** *** The traversal the driver inherits *)

(** Modelled from the spec: the tree transformer the pass extends
    ([TempVarTransformer], over the generic tree-rewriting base) is not
    among the sources.  The spec: the traversal recurses into nested
    scopes, never mutates a node, and returns the identical node when no
    child changed; otherwise it returns a new node of the same kind and
    location around the new children.  [transformList] gives the list and
    whether some element changed (the source returns the same array
    when none did). *)
Fixpoint transformList {A} (same : A -> A -> bool) (f : A -> M A)
    (elements : list A) : M (list A * bool) :=
  match elements with
  | [] => ret ([], false)
  | element :: rest =>
      transformed <- f element ;;
      r <- transformList same f rest ;;
      ret (transformed :: fst r, negb (same transformed element) || snd r)
  end.

(** Modelled from the spec: the traversal of a child that may be [null]. *)
Definition transformOptional (f : ParseTree -> M ParseTree)
    (tree : option ParseTree) : M (option ParseTree) :=
  match tree with
  | None => ret None
  | Some t => t' <- f t ;; ret (Some t')
  end.

(** Modelled from the spec: [a === b] on two children that may be [null]. *)
Definition sameOptional (a b : option ParseTree) : bool :=
  match a, b with
  | Some x, Some y => sameTree x y
  | None, None => true
  | _, _ => false
  end.

(** Modelled from the spec: [a === b] on two declarators. *)
Definition sameDeclaration (a b : VariableDeclaration) : bool :=
  match a, b with
  | MkVariableDeclaration ma _ _ _, MkVariableDeclaration mb _ _ _ =>
      Nat.eqb (oid ma) (oid mb)
  end.

(** Modelled from the spec: [a === b] on two declaration lists. *)
Definition sameDeclarationList (a b : VariableDeclarationList) : bool :=
  match a, b with
  | MkVariableDeclarationList ma _ _, MkVariableDeclarationList mb _ _ =>
      Nat.eqb (oid ma) (oid mb)
  end.

(** Modelled from the spec: the inherited traversal (see [transformList]),
with the four methods the driver overrides at function declarations,
    function expressions and accessors. *)
Fixpoint transformAny (tree : ParseTree) : M ParseTree :=
  match tree with
  | ParenExpression m expression =>
      e <- transformAny expression ;;
      if sameTree e expression then ret tree
      else new (location m) (fun m' => ParenExpression m' e)
  | CommaExpression m expressions =>
      r <- transformList sameTree transformAny expressions ;;
      if snd r then new (location m) (fun m' => CommaExpression m' (fst r))
      else ret tree
  | BinaryOperator m lhs operator rhs =>
      l <- transformAny lhs ;;
      r <- transformAny rhs ;;
      if sameTree l lhs && sameTree r rhs then ret tree
      else new (location m) (fun m' => BinaryOperator m' l operator r)
  | YieldExpression m expression isYieldFor =>
      e <- transformOptional transformAny expression ;;
      if sameOptional e expression then ret tree
      else new (location m) (fun m' => YieldExpression m' e isYieldFor)
  | IdentifierExpression _ _ => ret tree
  | MemberExpression m operand memberName =>
      o <- transformAny operand ;;
      if sameTree o operand then ret tree
      else new (location m) (fun m' => MemberExpression m' o memberName)
  | ExpressionStatement m expression =>
      e <- transformAny expression ;;
      if sameTree e expression then ret tree
      else new (location m) (fun m' => ExpressionStatement m' e)
  | VariableStatement m declarations =>
      d <- transformVariableDeclarationList declarations ;;
      if sameDeclarationList d declarations then ret tree
      else new (location m) (fun m' => VariableStatement m' d)
  | ReturnStatement m expression =>
      e <- transformOptional transformAny expression ;;
      if sameOptional e expression then ret tree
      else new (location m) (fun m' => ReturnStatement m' e)
  | Block m statements =>
      r <- transformList sameTree transformAny statements ;;
      if snd r then new (location m) (fun m' => Block m' (fst r))
      else ret tree
  | ForInStatement m initialiser collection body =>
      i <- transformAny initialiser ;;
      c <- transformAny collection ;;
      b <- transformAny body ;;
      if sameTree i initialiser && sameTree c collection && sameTree b body
      then ret tree
      else new (location m) (fun m' => ForInStatement m' i c b)
  | AwaitStatement m identifier expression =>
      e <- transformAny expression ;;
      if sameTree e expression then ret tree
      else new (location m) (fun m' => AwaitStatement m' identifier e)
  | FunctionDeclaration _ _ _ _ _ _ _ =>
      transformFunctionDeclaration transformFunctionBody tree
  | FunctionExpression _ _ _ _ _ _ _ =>
      transformFunctionExpression transformFunctionBody tree
  | GetAccessor _ _ _ _ _ _ =>
      transformGetAccessor transformFunctionBody tree
  | SetAccessor _ _ _ _ _ _ =>
      transformSetAccessor transformFunctionBody tree
  | OtherTree m type children =>
      r <- transformList sameTree transformAny children ;;
      if snd r then new (location m) (fun m' => OtherTree m' type (fst r))
      else ret tree
  end
with transformVariableDeclarationList (tree : VariableDeclarationList)
  : M VariableDeclarationList :=
  match tree with
  | MkVariableDeclarationList m declarationType declarations =>
      r <- transformList sameDeclaration transformVariableDeclaration
                         declarations ;;
      if snd r
      then new (location m)
               (fun m' => MkVariableDeclarationList m' declarationType (fst r))
      else ret tree
  end
with transformVariableDeclaration (tree : VariableDeclaration)
  : M VariableDeclaration :=
  match tree with
  | MkVariableDeclaration m lvalue typeAnnotation initialiser =>
      l <- transformAny lvalue ;;
      t <- transformOptional transformAny typeAnnotation ;;
      i <- transformOptional transformAny initialiser ;;
      if sameTree l lvalue && sameOptional t typeAnnotation &&
         sameOptional i initialiser
      then ret tree
      else new (location m) (fun m' => MkVariableDeclaration m' l t i)
  end
with transformFunctionBody (tree : FunctionBody) : M FunctionBody :=
  match tree with
  | MkFunctionBody _ statements =>
      r <- transformList sameTree transformAny statements ;;
      if snd r then createFunctionBody (fst r) else ret tree
  end.

End Driver.
End GeneratorTransformPass.

(** ** Shapes and predicates the statements below use *)

Import YieldExpressionTransformer.

(** [createMemberExpression('$ctx', 'sent')] built at identity [a]: the
    resumed-value slot. *)
Definition resumedSlot (a : nat) : ParseTree :=
  MemberExpression (mkMeta (S a) None)
                   (IdentifierExpression (mkMeta a None) "$ctx") "sent".

(** The three shapes the rewriter factors, read off the tests of its three
    methods. *)
Definition factorable (tree : ParseTree) : bool :=
  match tree with
  | ExpressionStatement _ expression =>
      match stripParens expression with
      | CommaExpression _ (ex0 :: _) =>
          isBinaryOperator ex0 && isYieldAssign ex0
      | _ => false
      end
  | VariableStatement _ (MkVariableDeclarationList _ _ (tdd0 :: _)) =>
      isYieldVarAssign tdd0
  | ReturnStatement _ (Some expression) => isYieldExpression expression
  | _ => false
  end.

(** The lists whose element 0 the source reads are not empty.  The parser
    gives a comma expression at least two expressions and a declaration
    list at least one declarator. *)
Definition hasElementZero (tree : ParseTree) : bool :=
  match tree with
  | ExpressionStatement _ expression =>
      match stripParens expression with
      | CommaExpression _ [] => false
      | _ => true
      end
  | VariableStatement _ (MkVariableDeclarationList _ _ []) => false
  | _ => true
  end.

(** The method of a transformer a statement is dispatched to, for the three
    kinds the rewriter overrides. *)
Definition overridden (o : Overrides) (tree : ParseTree)
  : option (M ParseTree) :=
  match tree with
  | ExpressionStatement _ _ => Some (onExpressionStatement o tree)
  | VariableStatement _ _ => Some (onVariableStatement o tree)
  | ReturnStatement _ _ => Some (onReturnStatement o tree)
  | _ => None
  end.

Definition optionally (f : ParseTree -> bool) (tree : option ParseTree) : bool :=
  match tree with Some t => f t | None => false end.

(** [occurs into p tree]: [p] holds of [tree] or of a tree below it, along
    the children the driver's traversal visits.  With [into = false] the
    search stops at function declarations, function expressions and
    accessors, whose insides are another function's. *)
Fixpoint occurs (into : bool) (p : ParseTree -> bool) (tree : ParseTree)
  : bool :=
  p tree ||
  match tree with
  | ParenExpression _ expression => occurs into p expression
  | CommaExpression _ expressions => existsb (occurs into p) expressions
  | BinaryOperator _ lhs _ rhs => occurs into p lhs || occurs into p rhs
  | YieldExpression _ expression _ => optionally (occurs into p) expression
  | IdentifierExpression _ _ => false
  | MemberExpression _ operand _ => occurs into p operand
  | ExpressionStatement _ expression => occurs into p expression
  | VariableStatement _ declarations =>
      occursDeclarationList into p declarations
  | ReturnStatement _ expression => optionally (occurs into p) expression
  | Block _ statements => existsb (occurs into p) statements
  | ForInStatement _ initialiser collection body =>
      occurs into p initialiser || occurs into p collection ||
      occurs into p body
  | AwaitStatement _ _ expression => occurs into p expression
  | FunctionDeclaration _ _ _ _ _ _ body
  | FunctionExpression _ _ _ _ _ _ body
  | GetAccessor _ _ _ _ _ body
  | SetAccessor _ _ _ _ _ body => into && occursBody into p body
  | OtherTree _ _ children => existsb (occurs into p) children
  end
with occursDeclarationList (into : bool) (p : ParseTree -> bool)
    (tree : VariableDeclarationList) : bool :=
  match tree with
  | MkVariableDeclarationList _ _ declarations =>
      existsb (occursDeclaration into p) declarations
  end
with occursDeclaration (into : bool) (p : ParseTree -> bool)
    (tree : VariableDeclaration) : bool :=
  match tree with
  | MkVariableDeclaration _ lvalue typeAnnotation initialiser =>
      occurs into p lvalue || optionally (occurs into p) typeAnnotation ||
      optionally (occurs into p) initialiser
  end
with occursBody (into : bool) (p : ParseTree -> bool) (tree : FunctionBody)
  : bool :=
  match tree with
  | MkFunctionBody _ statements => existsb (occurs into p) statements
  end.

Definition isSuspend (tree : ParseTree) : bool :=
  match tree with
  | YieldExpression _ _ _ | AwaitStatement _ _ _ => true
  | _ => false
  end.

Definition isAwaitStatement (tree : ParseTree) : bool :=
  match tree with AwaitStatement _ _ _ => true | _ => false end.

Definition isForInStatement (tree : ParseTree) : bool :=
  match tree with ForInStatement _ _ _ _ => true | _ => false end.

Definition isGeneratorFunction (tree : ParseTree) : bool :=
  match tree with
  | FunctionDeclaration _ _ isGenerator _ _ _ _
  | FunctionExpression _ _ isGenerator _ _ _ _ => isGenerator
  | _ => false
  end.

(** A suspend expression somewhere in the tree, nested functions included. *)
Definition containsSuspend (tree : ParseTree) : bool :=
  occurs true isSuspend tree.

(** A generator function somewhere in the tree, the tree itself included. *)
Definition containsGenerator (tree : ParseTree) : bool :=
  occurs true isGeneratorFunction tree.

(** When the driver hands a body to the for-in lowering: the test of line
    222 holds and neither early return of lines 212-218 was taken. *)
Definition forInDue (o : TransformOptions) (isGenerator : option bool)
    (finder : YieldFinder) : bool :=
  hasForIn finder && (generators o || deferredFunctions o) &&
  (truthy isGenerator ||
   deferredFunctions o && (hasYield finder || hasAwait finder)).

(** Neither early return of lines 212-218 is taken: the function is a
    generator, or deferred support is on and the finder reports a suspend
    or an await. *)
Definition pastEarlyReturns (o : TransformOptions) (isGenerator : option bool)
    (finder : YieldFinder) : bool :=
  truthy isGenerator ||
  deferredFunctions o && (hasYield finder || hasAwait finder).

(** The branch of lines 227-237 with generator support on. *)
Definition factoringDue (o : TransformOptions) (isGenerator : option bool)
    (finder : YieldFinder) : bool :=
  pastEarlyReturns o isGenerator finder &&
  (hasYield finder || truthy isGenerator) && generators o.

(** The branch of lines 238-241. *)
Definition asyncDue (o : TransformOptions) (isGenerator : option bool)
    (finder : YieldFinder) : bool :=
  pastEarlyReturns o isGenerator finder &&
  negb (hasYield finder || truthy isGenerator) && deferredFunctions o.

(** Some pass is due. *)
Definition workDue (o : TransformOptions) (isGenerator : option bool)
    (finder : YieldFinder) : bool :=
  forInDue o isGenerator finder || factoringDue o isGenerator finder ||
  asyncDue o isGenerator finder.

(** [e] inside one pair of parentheses for each element of [ms], the first
    outermost: [((e))] for two. *)
Fixpoint parenthesised (ms : list Meta) (e : ParseTree) : ParseTree :=
  match ms with
  | [] => e
  | m :: inner => ParenExpression m (parenthesised inner e)
  end.

(** Two statements of the same one of the three kinds the rewriter
    overrides. *)
Definition sameStatementKind (a b : ParseTree) : bool :=
  match a, b with
  | ExpressionStatement _ _, ExpressionStatement _ _
  | VariableStatement _ _, VariableStatement _ _
  | ReturnStatement _ _, ReturnStatement _ _ => true
  | _, _ => false
  end.

(** ** Stand-ins for the collaborators, for running the driver *)

Module StandIn.

(** Modelled from the spec: [./YieldFinder] is not among the sources.  The
    analyzer reports whether the body holds a suspend expression, an await
    and a for-in loop of its own, nested functions left aside. *)
Definition yieldFinder (body : FunctionBody) : YieldFinder :=
  let found p := occursBody false p body in
  {| hasYield := found isYieldExpression;
     hasAwait := found isAwaitStatement;
     hasForIn := found isForInStatement |}.

(** A pass that hands back a new body object around the statements it
    was given: what is seen of a lowering pass or a builder from the
    driver is that its result is another object. *)
Definition rebuild : Pass :=
  fun body n => (Normal (MkFunctionBody (mkMeta n None) (bodyStatements body)),
                 S n).

(** A pass that finds nothing to rewrite and returns its argument. *)
Definition unchanged : Pass := fun body n => (Normal body, n).

Definition options (g d : bool) : TransformOptions :=
  {| generators := g; deferredFunctions := d |}.

(** The driver over the stand-ins. *)
Definition run (o : TransformOptions) : ParseTree -> M ParseTree :=
  GeneratorTransformPass.transformAny o yieldFinder rebuild
    (fun _ => unchanged) rebuild rebuild.

Definition runBody (o : TransformOptions) (tree : FunctionBody)
    (isGenerator : option bool) : M FunctionBody :=
  GeneratorTransformPass.transformBody_ o yieldFinder rebuild
    (fun _ => unchanged) rebuild rebuild
    (GeneratorTransformPass.transformFunctionBody o yieldFinder rebuild
       (fun _ => unchanged) rebuild rebuild)
    tree isGenerator.

(** The object of identity [n], located at [n]. *)
Definition at_ (n : nat) : Meta := mkMeta n (Some (n, n + 1)).

Definition ident (n : nat) (s : string) : ParseTree :=
  IdentifierExpression (at_ n) s.

(** [yield e] at identity [n], [e] at [n + 1]. *)
Definition yield_ (n : nat) (e : string) : ParseTree :=
  YieldExpression (at_ n) (Some (ident (n + 1) e)) false.

(** [x = yield e;] *)
Definition assignYield : ParseTree :=
  ExpressionStatement (at_ 0)
    (BinaryOperator (at_ 1) (ident 2 "x") EQUAL (yield_ 3 "e")).

(** [(x = yield e, a, b);] *)
Definition commaYield : ParseTree :=
  ExpressionStatement (at_ 0)
    (ParenExpression (at_ 1)
       (CommaExpression (at_ 2)
          [BinaryOperator (at_ 3) (ident 4 "x") EQUAL (yield_ 5 "e");
           ident 7 "a"; ident 8 "b"])).

(** [(a, x = yield e);] *)
Definition commaYieldSecond : ParseTree :=
  ExpressionStatement (at_ 0)
    (CommaExpression (at_ 1)
       [ident 2 "a";
        BinaryOperator (at_ 3) (ident 4 "x") EQUAL (yield_ 5 "e")]).

(** [var a = 1, x = yield e;] with [1] written as an identifier. *)
Definition varYieldSecond : ParseTree :=
  VariableStatement (at_ 0)
    (MkVariableDeclarationList (at_ 1) VAR
       [MkVariableDeclaration (at_ 2) (ident 3 "a") None (Some (ident 4 "1"));
        MkVariableDeclaration (at_ 5) (ident 6 "x") None (Some (yield_ 7 "e"))]).

(** [yield e;] *)
Definition bareYield : ParseTree := ExpressionStatement (at_ 0) (yield_ 1 "e").

(** An empty parameter list. *)
Definition params (n : nat) : ParseTree :=
  OtherTree (at_ n) "FORMAL_PARAMETER_LIST" [].

(** The body of [function* g() {}] at identity 3. *)
Definition emptyBody : FunctionBody := MkFunctionBody (at_ 3) [].

(** [function* g() {}] at identities [n .. n + 3]. *)
Definition emptyGenerator (n : nat) : ParseTree :=
  FunctionDeclaration (at_ n) (Some (ident (n + 1) "g")) true (params (n + 2))
    None [] (MkFunctionBody (at_ (n + 3)) []).

(** The body of [function f() { for (k in o) {} }]. *)
Definition forInBody : FunctionBody :=
  MkFunctionBody (at_ 3)
    [ForInStatement (at_ 4) (ident 5 "k") (ident 6 "o") (Block (at_ 7) [])].

(** [function f() { function* g() {} }] *)
Definition outerFunction : ParseTree :=
  FunctionDeclaration (at_ 0) (Some (ident 1 "f")) false (params 2) None []
    (MkFunctionBody (at_ 3) [emptyGenerator 4]).

(** [get p() { function* g() {} }] *)
Definition outerGetter : ParseTree :=
  GetAccessor (at_ 0) false (ident 1 "p") None []
    (MkFunctionBody (at_ 3) [emptyGenerator 4]).

(** [set p(v) { function* g() {} }] *)
Definition outerSetter : ParseTree :=
  SetAccessor (at_ 0) false (ident 1 "p") (ident 2 "v") []
    (MkFunctionBody (at_ 3) [emptyGenerator 4]).

(** [function f() { return 1; }] *)
Definition plainFunction : ParseTree :=
  FunctionDeclaration (at_ 0) (Some (ident 1 "f")) false (params 2) None []
    (MkFunctionBody (at_ 3) [ReturnStatement (at_ 4) (Some (ident 5 "1"))]).

(** [get p() { return 1; }] *)
Definition plainGetter : ParseTree :=
  GetAccessor (at_ 0) false (ident 1 "p") None []
    (MkFunctionBody (at_ 3) [ReturnStatement (at_ 4) (Some (ident 5 "1"))]).

(** [function h() { await x; }] at identities [n .. n + 6]. *)
Definition awaitFunction (n : nat) : ParseTree :=
  FunctionDeclaration (at_ n) (Some (ident (n + 1) "h")) false (params (n + 2))
    None []
    (MkFunctionBody (at_ (n + 3))
       [AwaitStatement (at_ (n + 4)) None (ident (n + 5) "x")]).

(** The body of [function* f() { function h() { await x; } }]. *)
Definition generatorAroundAwaitBody : FunctionBody :=
  MkFunctionBody (at_ 3) [awaitFunction 4].

(** The body of [function* g() { var x = yield e; return yield x; }]. *)
Definition yieldingBody : FunctionBody :=
  MkFunctionBody (at_ 3)
    [VariableStatement (at_ 4)
       (MkVariableDeclarationList (at_ 5) VAR
          [MkVariableDeclaration (at_ 6) (ident 7 "x") None
                                 (Some (yield_ 8 "e"))]);
     ReturnStatement (at_ 10) (Some (yield_ 11 "x"))].

(** [function* g() { var x = yield e; return yield x; }] *)
Definition yieldingGenerator : ParseTree :=
  FunctionDeclaration (at_ 0) (Some (ident 1 "g")) true (params 2) None []
    yieldingBody.

(** The body of [function f() { for (k in o) {} await x; }]. *)
Definition awaitForInBody : FunctionBody :=
  MkFunctionBody (at_ 3)
    [ForInStatement (at_ 4) (ident 5 "k") (ident 6 "o") (Block (at_ 7) []);
     AwaitStatement (at_ 8) None (ident 9 "x")].

(** [return (yield e);] *)
Definition returnParenYield : ParseTree :=
  ReturnStatement (at_ 0) (Some (ParenExpression (at_ 1) (yield_ 2 "e"))).

End StandIn.

(** ** The rewriter *)

Section Rewriter.

(** What the rewriter does where the source reads element 0 of an empty
    list. *)
Lemma element_zero_missing : forall tree n,
  overridden YieldExpressionTransformer_methods tree <> None ->
  hasElementZero tree = false ->
  (transformExpressionStatement tree n = (Throw TypeError, n, []) \/
   transformVariableStatement tree n = (Throw TypeError, n, [])).
Proof.
  intros tree n Hk H. destruct tree; simpl in *; try discriminate;
    try congruence.
  - left. destruct (stripParens tree); try discriminate.
    destruct expressions; [reflexivity | discriminate].
  - right. destruct declarations as [m' k l]. destruct l;
      [reflexivity | discriminate].
Qed.

(** C5.  A return statement whose expression is a suspend expression
    becomes a block of exactly two statements: an expression statement
    holding the very same suspend expression, then a return of the
    resumed-value slot. *)
Theorem return_of_yield_factored : forall m my e isYieldFor n,
  let Y := YieldExpression my e isYieldFor in
  transformReturnStatement (ReturnStatement m (Some Y)) n =
  (Normal
     (Block (mkMeta (4 + n) None)
        [ExpressionStatement (mkMeta n None) Y;
         ReturnStatement (mkMeta (3 + n) None)
                         (Some (resumedSlot (1 + n)))]),
   5 + n, []).
Proof. reflexivity. Qed.

(** C6.  A variable statement whose first declarator is initialised by a
    suspend expression becomes a block whose variable statement has the
    declaration kind of the input and, after the first declarator, the
    declarators of the input, the same and in the same order. *)
Theorem variable_statement_kind_and_rest_kept :
  forall m ml declarationType md lvalue typeAnnotation my e isYieldFor rest n,
    let Y := YieldExpression my e isYieldFor in
    transformVariableStatement
      (VariableStatement m
         (MkVariableDeclarationList ml declarationType
            (MkVariableDeclaration md lvalue typeAnnotation (Some Y) :: rest)))
      n =
    (Normal
       (Block (mkMeta (6 + n) None)
          [ExpressionStatement (mkMeta n None) Y;
           VariableStatement (mkMeta (5 + n) None)
             (MkVariableDeclarationList (mkMeta (4 + n) None) declarationType
                (MkVariableDeclaration (mkMeta (3 + n) None) lvalue None
                                       (Some (resumedSlot (1 + n)))
                 :: rest))]),
     7 + n, []).
Proof. reflexivity. Qed.

(** The statement [x = yield e;], an expression statement whose expression
    is the assignment itself, is what [isYieldAssign] accepts, and the
    rewriter returns it as it is: the [switch] has no case for a binary
    operator. *)
Theorem plain_yield_assignment_returned :
  forall m mb x my e isYieldFor n,
    let A := BinaryOperator mb x EQUAL (YieldExpression my e isYieldFor) in
    isYieldAssign A = true /\
    transformExpressionStatement (ExpressionStatement m A) n =
    (Normal (ExpressionStatement m A), n, []).
Proof. intros. split; reflexivity. Qed.

(** The same on [x = yield e;] at the identities of [StandIn.assignYield]. *)
Example assign_yield_statement_returned :
  transformExpressionStatement StandIn.assignYield 100 =
  (Normal StandIn.assignYield, 100, []).
Proof. reflexivity. Qed.

Lemma comma_first_not_assign : forall m expression mc ex0 rest n,
  stripParens expression = CommaExpression mc (ex0 :: rest) ->
  isBinaryOperator ex0 && isYieldAssign ex0 = false ->
  transformExpressionStatement (ExpressionStatement m expression) n =
  (Normal (ExpressionStatement m expression), n, []).
Proof.
  intros m expression mc ex0 rest n Hs H. unfold transformExpressionStatement.
  rewrite Hs. destruct ex0; try reflexivity.
  simpl isBinaryOperator in H. rewrite andb_true_l in H. rewrite H.
  reflexivity.
Qed.

Lemma comma_first_assign : forall m expression mc mb L op Y rest n,
  stripParens expression =
    CommaExpression mc (BinaryOperator mb L op Y :: rest) ->
  isYieldAssign (BinaryOperator mb L op Y) = true ->
  transformExpressionStatement (ExpressionStatement m expression) n =
  (Normal
     (Block (mkMeta (6 + n) None)
        [ExpressionStatement (mkMeta n None) Y;
         ExpressionStatement (mkMeta (5 + n) None)
           (CommaExpression (mkMeta (4 + n) None)
              (BinaryOperator (mkMeta (3 + n) None) L EQUAL
                              (resumedSlot (1 + n))
               :: rest))]),
   7 + n, []).
Proof.
  intros m expression mc mb L op Y rest n Hs H.
  unfold transformExpressionStatement. rewrite Hs, H. reflexivity.
Qed.

Lemma declarator_first_not_yield : forall m ml declarationType tdd0 rest n,
  isYieldVarAssign tdd0 = false ->
  transformVariableStatement
    (VariableStatement m
       (MkVariableDeclarationList ml declarationType (tdd0 :: rest))) n =
  (Normal
     (VariableStatement m
        (MkVariableDeclarationList ml declarationType (tdd0 :: rest))),
   n, []).
Proof.
  intros m ml k tdd0 rest n H. unfold transformVariableStatement.
  destruct tdd0 as [md lv ta [i|]]; try reflexivity.
  rewrite H. reflexivity.
Qed.

(** C7.  Of a comma expression in statement position and of a declarator
    list only the first element is looked at.  When it is not a suspend
    assignment the statement is returned as it is, whatever stands in the
    later positions; when it is, the later elements follow the assignment
    of the resumed-value slot, the same and in the same order. *)
Theorem only_first_element_inspected :
  (forall m expression mc ex0 rest n,
      stripParens expression = CommaExpression mc (ex0 :: rest) ->
      isBinaryOperator ex0 && isYieldAssign ex0 = false ->
      transformExpressionStatement (ExpressionStatement m expression) n =
      (Normal (ExpressionStatement m expression), n, [])) /\
  (forall m ml declarationType tdd0 rest n,
      isYieldVarAssign tdd0 = false ->
      transformVariableStatement
        (VariableStatement m
           (MkVariableDeclarationList ml declarationType (tdd0 :: rest))) n =
      (Normal
         (VariableStatement m
            (MkVariableDeclarationList ml declarationType (tdd0 :: rest))),
       n, [])) /\
  (forall m expression mc mb L op Y rest n,
      stripParens expression =
        CommaExpression mc (BinaryOperator mb L op Y :: rest) ->
      isYieldAssign (BinaryOperator mb L op Y) = true ->
      transformExpressionStatement (ExpressionStatement m expression) n =
      (Normal
         (Block (mkMeta (6 + n) None)
            [ExpressionStatement (mkMeta n None) Y;
             ExpressionStatement (mkMeta (5 + n) None)
               (CommaExpression (mkMeta (4 + n) None)
                  (BinaryOperator (mkMeta (3 + n) None) L EQUAL
                                  (resumedSlot (1 + n))
                   :: rest))]),
       7 + n, [])) /\
  (forall m ml declarationType md lvalue typeAnnotation Y rest n,
      isYieldExpression Y = true ->
      transformVariableStatement
        (VariableStatement m
           (MkVariableDeclarationList ml declarationType
              (MkVariableDeclaration md lvalue typeAnnotation (Some Y)
               :: rest))) n =
      (Normal
         (Block (mkMeta (6 + n) None)
            [ExpressionStatement (mkMeta n None) Y;
             VariableStatement (mkMeta (5 + n) None)
               (MkVariableDeclarationList (mkMeta (4 + n) None)
                  declarationType
                  (MkVariableDeclaration (mkMeta (3 + n) None) lvalue None
                                         (Some (resumedSlot (1 + n)))
                   :: rest))]),
       7 + n, [])).
Proof.
  split; [exact comma_first_not_assign |].
  split; [exact declarator_first_not_yield |].
  split; [exact comma_first_assign |].
  intros m ml k md lv ta Y rest n H. unfold transformVariableStatement.
  unfold isYieldVarAssign. rewrite H. reflexivity.
Qed.

(** The witness of C7: [(a, x = yield e);] and [var a = 1, x = yield e;]
    come back as they are, and [(x = yield e, a, b);] keeps [a, b]. *)
Lemma only_first_element_inspected_witness :
  transformExpressionStatement StandIn.commaYieldSecond 100 =
    (Normal StandIn.commaYieldSecond, 100, []) /\
  transformVariableStatement StandIn.varYieldSecond 100 =
    (Normal StandIn.varYieldSecond, 100, []) /\
  transformExpressionStatement StandIn.commaYield 100 =
    (Normal
       (Block (mkMeta 106 None)
          [ExpressionStatement (mkMeta 100 None) (StandIn.yield_ 5 "e");
           ExpressionStatement (mkMeta 105 None)
             (CommaExpression (mkMeta 104 None)
                [BinaryOperator (mkMeta 103 None) (StandIn.ident 4 "x") EQUAL
                                (resumedSlot 101);
                 StandIn.ident 7 "a"; StandIn.ident 8 "b"])]),
     107, []) /\
  transformVariableStatement
    (VariableStatement (StandIn.at_ 0)
       (MkVariableDeclarationList (StandIn.at_ 1) LET
          [MkVariableDeclaration (StandIn.at_ 2) (StandIn.ident 3 "x") None
                                 (Some (StandIn.yield_ 4 "e"));
           MkVariableDeclaration (StandIn.at_ 6) (StandIn.ident 7 "y") None
                                 (Some (StandIn.ident 8 "f"))])) 100 =
    (Normal
       (Block (mkMeta 106 None)
          [ExpressionStatement (mkMeta 100 None) (StandIn.yield_ 4 "e");
           VariableStatement (mkMeta 105 None)
             (MkVariableDeclarationList (mkMeta 104 None) LET
                [MkVariableDeclaration (mkMeta 103 None) (StandIn.ident 3 "x")
                                       None (Some (resumedSlot 101));
                 MkVariableDeclaration (StandIn.at_ 6) (StandIn.ident 7 "y")
                                       None (Some (StandIn.ident 8 "f"))])]),
     107, []).
Proof.
  destruct only_first_element_inspected as (H1 & H2 & H3 & H4).
  split; [| split; [| split]].
  - apply (H1 _ _ (StandIn.at_ 1) (StandIn.ident 2 "a")
              [BinaryOperator (StandIn.at_ 3) (StandIn.ident 4 "x") EQUAL
                              (StandIn.yield_ 5 "e")]); reflexivity.
  - apply H2. reflexivity.
  - apply (H3 _ _ (StandIn.at_ 2) (StandIn.at_ 3) (StandIn.ident 4 "x")
              EQUAL (StandIn.yield_ 5 "e")
              [StandIn.ident 7 "a"; StandIn.ident 8 "b"]); reflexivity.
  - apply H4. reflexivity.
Defined.

(** C9.  A statement of one of the three kinds the rewriter overrides
    that has none of the three shapes comes back as the identical node,
    and nothing is allocated; a suspend expression alone in an expression
    statement is such a statement. *)
Theorem unmatched_statement_returned :
  (forall tree c n,
      overridden YieldExpressionTransformer_methods tree = Some c ->
      hasElementZero tree = true ->
      factorable tree = false ->
      c n = (Normal tree, n, [])) /\
  (forall m my e isYieldFor n,
      let tree := ExpressionStatement m (YieldExpression my e isYieldFor) in
      factorable tree = false /\
      transformExpressionStatement tree n = (Normal tree, n, [])).
Proof.
  split.
  - intros tree c n Hc Hz Hf.
    destruct tree; simpl in Hc; try discriminate;
      injection Hc as <-; simpl in *.
    + destruct (stripParens tree) eqn:Hs; try reflexivity.
      destruct expressions as [|ex0 rest]; [discriminate |].
      destruct ex0; try reflexivity.
      simpl isBinaryOperator in Hf. rewrite andb_true_l in Hf.
      rewrite Hf. reflexivity.
    + destruct declarations as [ml k [|tdd0 rest]]; [discriminate |].
      destruct tdd0 as [md lv ta [i|]]; try reflexivity.
      rewrite Hf. reflexivity.
    + destruct expression as [e|]; [| reflexivity].
      rewrite Hf. reflexivity.
  - intros. split; reflexivity.
Qed.

(** The witness of C9: [(a, x = yield e);] and [yield e;]. *)
Lemma unmatched_statement_returned_witness :
  transformExpressionStatement StandIn.commaYieldSecond 100 =
    (Normal StandIn.commaYieldSecond, 100, []) /\
  transformExpressionStatement StandIn.bareYield 100 =
    (Normal StandIn.bareYield, 100, []).
Proof.
  split.
  - apply (proj1 unmatched_statement_returned StandIn.commaYieldSecond);
      reflexivity.
  - apply (proj1 unmatched_statement_returned StandIn.bareYield);
      reflexivity.
Defined.

End Rewriter.

(** ** The driver *)

Section DriverFacts.

Variable o : TransformOptions.
Variable finder : FunctionBody -> YieldFinder.
Variables forIn genB asyncB : Pass.
Variable inh : Overrides -> Pass.

Section MethodFacts.

Variable super : FunctionBody -> M FunctionBody.

Local Abbreviation transformBody_ :=
  (GeneratorTransformPass.transformBody_ o finder forIn inh genB asyncB
                                         super).

(** Case analysis on the outcome of every call of a collaborating pass
    in the goal. *)
Ltac pass_outcomes :=
  unfold invoke;
  repeat match goal with
         | |- context [match ?x with _ => _ end] =>
             lazymatch type of x with
             | (Completion FunctionBody * nat)%type =>
                 destruct x as [[?|?] ?]
             end; simpl
         end.

Lemma bind_ret_r : forall A (c : M A) n, (x <- c ;; ret x) n = c n.
Proof.
  intros A c n. unfold bind, ret.
  destruct (c n) as [[[a|e] n1] l1]; [rewrite app_nil_r |]; reflexivity.
Qed.

(** [finder] is never read while [undefined]: the branch of line 216 that
    would fall through to line 222 without a finder has a test that always
    holds there. *)
Lemma finder_defined_where_read : forall tree isGenerator n,
  transformBody_ tree isGenerator n =
  (body <- super tree ;;
   if (truthy isGenerator || deferredFunctions o) &&
      (hasYield (finder tree) || truthy isGenerator || hasAwait (finder tree))
   then GeneratorTransformPass.transformBody_lowering
          o forIn inh genB asyncB (Some (finder tree)) isGenerator body
   else ret body) n.
Proof.
  intros tree isGenerator n. unfold GeneratorTransformPass.transformBody_, bind.
  destruct (super tree n) as [[[b|e] n1] l1]; [| reflexivity].
  destruct (truthy isGenerator), (deferredFunctions o),
    (hasYield (finder tree)), (hasAwait (finder tree)); reflexivity.
Qed.


(** C3, amended.  Of the passes [transformBody_] itself invokes, after
    the inner recursion, the for-in lowering is among them exactly when
    the finder reports a for-in loop, generator or deferred support is
    on, and no early return was taken: the function is a generator, or
    deferred support is on and the finder reports a suspend or an await.
    It is then invoked on the body the inner recursion returned. *)
Theorem for_in_lowering_gate : forall tree isGenerator n body n1 l1,
  super tree n = (Normal body, n1, l1) ->
  exists own,
    snd (transformBody_ tree isGenerator n) = l1 ++ own /\
    forall b,
      In (ForInLowering b) own <->
      b = body /\ forInDue o isGenerator (finder tree) = true.
Proof.
  intros tree isGenerator n body n1 l1 Hs.
  unfold GeneratorTransformPass.transformBody_,
    GeneratorTransformPass.transformBody_lowering, forInDue, bind.
  rewrite Hs. destruct (finder tree) as [y a f]. destruct o as [g d].
  destruct isGenerator as [[|]|]; destruct g, d, y, a, f; simpl;
    pass_outcomes;
    (eexists; split; [reflexivity |]);
    intros b0; simpl; split;
    try (intros [? ?]; discriminate);
    try (intros [? ?]; subst; auto; fail);
    intros H; repeat (destruct H as [H | H]; try discriminate);
    try contradiction;
    try (injection H as <-; auto).
Qed.

(** C4, amended.  When the body of a function declaration or function
    expression was replaced, the driver returns a new node of the same
    kind with the replacement as its body, the generator flag false and
    no source location; the name, the parameter list, the type
    annotation and the annotations are those of the input. *)
Theorem replaced_function_node :
  forall m name isGenerator formalParameterList typeAnnotation annotations
         functionBody body n n1 l,
    transformBody_ functionBody (Some isGenerator) n = (Normal body, n1, l) ->
    sameBody body functionBody = false ->
    GeneratorTransformPass.transformFunctionDeclaration
      o finder forIn inh genB asyncB super
      (FunctionDeclaration m name isGenerator formalParameterList
                           typeAnnotation annotations functionBody) n =
    (Normal (FunctionDeclaration (mkMeta n1 None) name false
                                 formalParameterList typeAnnotation
                                 annotations body),
     S n1, l) /\
    GeneratorTransformPass.transformFunctionExpression
      o finder forIn inh genB asyncB super
      (FunctionExpression m name isGenerator formalParameterList
                          typeAnnotation annotations functionBody) n =
    (Normal (FunctionExpression (mkMeta n1 None) name false
                                formalParameterList typeAnnotation
                                annotations body),
     S n1, l).
Proof.
  intros m name g fpl ta ann fb body n n1 l Hb Hs.
  unfold GeneratorTransformPass.transformFunctionDeclaration,
    GeneratorTransformPass.transformFunctionExpression,
    GeneratorTransformPass.transformFunction_, bind.
  rewrite Hb, Hs. simpl. rewrite app_nil_r. split; reflexivity.
Qed.

(** C10, amended.  An accessor's body is transformed with the generator
    flag left out.  With deferred support off, [transformBody_] returns
    what the inner recursion returned and invokes no pass, whatever the
    body holds.  The accessor comes back as the identical node when the
    body that comes back is the identical body; otherwise it is built
    anew around the new body, with the location, the static flag, the
    name, the type annotation or parameter and the annotations of the
    input. *)
Theorem accessor_body_without_flag :
  (deferredFunctions o = false ->
   forall tree n, transformBody_ tree None n = super tree n) /\
  (forall m isStatic name typeAnnotation annotations body0 body n n1 l,
      transformBody_ body0 None n = (Normal body, n1, l) ->
      let tree := GetAccessor m isStatic name typeAnnotation annotations
                              body0 in
      GeneratorTransformPass.transformGetAccessor
        o finder forIn inh genB asyncB super tree n =
      if sameBody body body0 then (Normal tree, n1, l)
      else (Normal (GetAccessor (mkMeta n1 (location m)) isStatic name
                                typeAnnotation annotations body),
            S n1, l)) /\
  (forall m isStatic name parameter annotations body0 body n n1 l,
      transformBody_ body0 None n = (Normal body, n1, l) ->
      let tree := SetAccessor m isStatic name parameter annotations
                              body0 in
      GeneratorTransformPass.transformSetAccessor
        o finder forIn inh genB asyncB super tree n =
      if sameBody body body0 then (Normal tree, n1, l)
      else (Normal (SetAccessor (mkMeta n1 (location m)) isStatic name
                                parameter annotations body),
            S n1, l)).
Proof.
  split; [| split].
  - intros Hd tree n.
    unfold GeneratorTransformPass.transformBody_. rewrite Hd. simpl.
    apply bind_ret_r.
  - intros m st name ta ann body0 body n n1 l Hb. cbv zeta.
    unfold GeneratorTransformPass.transformGetAccessor, bind.
    rewrite Hb. destruct (sameBody body body0); simpl;
      rewrite app_nil_r; reflexivity.
  - intros m st name pa ann body0 body n n1 l Hb. cbv zeta.
    unfold GeneratorTransformPass.transformSetAccessor, bind.
    rewrite Hb. destruct (sameBody body body0); simpl;
      rewrite app_nil_r; reflexivity.
Qed.

End MethodFacts.

Section Untouched.

Hypothesis deferred_off : deferredFunctions o = false.

Local Abbreviation transformAny :=
  (GeneratorTransformPass.transformAny o finder forIn inh genB asyncB).

Lemma transformList_unchanged :
  forall A (same : A -> A -> bool) (f : A -> M A) (q : A -> bool)
         (l : list A),
    (forall x, same x x = true) ->
    list_all (fun x => q x = false ->
                       forall n, f x n = (Normal x, n, [])) l ->
    existsb q l = false ->
    forall n,
      GeneratorTransformPass.transformList same f l n =
      (Normal (l, false), n, []).
Proof.
  intros A same f q l Hsame Hall. induction Hall as [| x Hx l Hall IH];
    intros Hq n.
  - reflexivity.
  - simpl in Hq. apply orb_false_iff in Hq. destruct Hq as [Hqx Hql].
    simpl. unfold bind. rewrite (Hx Hqx n), (IH Hql n). simpl.
    rewrite Hsame. reflexivity.
Qed.

Lemma transformOptional_unchanged :
  forall (f : ParseTree -> M ParseTree) (q : ParseTree -> bool)
         (e : option ParseTree),
    option_all (fun x => q x = false ->
                         forall n, f x n = (Normal x, n, [])) e ->
    optionally q e = false ->
    forall n,
      GeneratorTransformPass.transformOptional f e n = (Normal e, n, []).
Proof.
  intros f q e Hall. destruct Hall as [x Hx |]; intros Hq n.
  - simpl in Hq. simpl. unfold bind. rewrite (Hx Hq n). reflexivity.
  - reflexivity.
Qed.

Lemma sameTree_refl : forall x, sameTree x x = true.
Proof. intros. apply Nat.eqb_refl. Qed.

Lemma sameOptional_refl :
  forall x, GeneratorTransformPass.sameOptional x x = true.
Proof. intros [x|]; [apply sameTree_refl | reflexivity]. Qed.

Lemma sameDeclaration_refl :
  forall x, GeneratorTransformPass.sameDeclaration x x = true.
Proof. intros [m l t i]. apply Nat.eqb_refl. Qed.

Lemma sameDeclarationList_refl :
  forall x, GeneratorTransformPass.sameDeclarationList x x = true.
Proof. intros [m k l]. apply Nat.eqb_refl. Qed.

Lemma sameBody_refl : forall x, sameBody x x = true.
Proof. intros. apply Nat.eqb_refl. Qed.

Lemma traversal_unchanged :
  (forall tree,
      occurs true isGeneratorFunction tree = false ->
      forall n, transformAny tree n = (Normal tree, n, [])) /\
  (forall tree,
      occursDeclarationList true isGeneratorFunction tree = false ->
      forall n,
        GeneratorTransformPass.transformVariableDeclarationList
          o finder forIn inh genB asyncB tree n = (Normal tree, n, [])) /\
  (forall tree,
      occursDeclaration true isGeneratorFunction tree = false ->
      forall n,
        GeneratorTransformPass.transformVariableDeclaration
          o finder forIn inh genB asyncB tree n = (Normal tree, n, [])) /\
  (forall tree,
      occursBody true isGeneratorFunction tree = false ->
      forall n,
        GeneratorTransformPass.transformFunctionBody
          o finder forIn inh genB asyncB tree n = (Normal tree, n, [])).
Proof.
  apply ParseTree_mutind; intros; simpl in *;
    repeat match goal with
           | H : _ || _ = false |- _ =>
               apply orb_false_iff in H; destruct H
           end;
    subst;
    repeat match goal with
           | IH : ?q = false -> forall n, _, Hq : ?q = false |- _ =>
               specialize (IH Hq)
           | IH : list_all _ ?l, Hq : existsb _ ?l = false |- _ =>
               first
                 [ pose proof (transformList_unchanged _ _ _ sameTree_refl
                                                       IH Hq)
                 | pose proof (transformList_unchanged _ _ _
                                 sameDeclaration_refl IH Hq) ];
               clear IH
           | IH : option_all _ ?e, Hq : optionally _ ?e = false |- _ =>
               pose proof (transformOptional_unchanged _ _ IH Hq); clear IH
           end;
    unfold GeneratorTransformPass.transformBody_, bind;
    repeat (match goal with
            | H : forall n, _ = (Normal _, n, []) |- _ => rewrite H
            end; simpl);
    rewrite ?deferred_off; simpl;
    rewrite ?sameTree_refl, ?sameOptional_refl, ?sameBody_refl,
      ?sameDeclarationList_refl; simpl;
    reflexivity.
Qed.

(** C8, amended.  With deferred support off, a tree that holds no
    generator function, itself included, is returned by the driver as
    the identical node: nothing is allocated and no pass is invoked.
    This is so of every function declaration and function expression
    that is not a generator and has no generator function nested in
    it, whether or not a suspend expression occurs in it. *)
Theorem function_without_generator_returned : forall tree n,
  containsGenerator tree = false ->
  transformAny tree n = (Normal tree, n, []).
Proof.
  intros tree n H. apply (proj1 traversal_unchanged). exact H.
Qed.

End Untouched.

End DriverFacts.

(** ** The driver on concrete trees *)

Section Runs.

Import StandIn.

Local Abbreviation inner o :=
  (GeneratorTransformPass.transformFunctionBody o yieldFinder rebuild
     (fun _ => unchanged) rebuild rebuild).



(** The witness of C3: [function* f() { for (k in o) {} }]. *)
Lemma for_in_lowering_gate_witness :
  exists own,
    snd (runBody (options true false) forInBody (Some true) 100) =
      [] ++ own /\
    forall b,
      In (ForInLowering b) own <->
      b = forInBody /\
      forInDue (options true false) (Some true) (yieldFinder forInBody) = true.
Proof.
  apply (for_in_lowering_gate (options true false) yieldFinder rebuild
           rebuild rebuild (fun _ => unchanged) (inner (options true false))
           forInBody (Some true) 100 (n1 := 100)).
  reflexivity.
Defined.

(** C3 as stated fails on [function f() { for (k in o) {} }], which is not
    a generator.  With both supports on, the finder is made and reports a
    for-in loop, and the body is returned at line 215 before the for-in
    test: the lowering is not invoked.  With deferred support off the body
    is returned at line 217, before a finder is made. *)
Lemma for_in_lowering_gate_counterexample :
  hasForIn (yieldFinder forInBody) = true /\
  generators (options true true) || deferredFunctions (options true true)
    = true /\
  (forall b,
      ~ In (ForInLowering b)
           (snd (runBody (options true true) forInBody (Some false) 100))) /\
  generators (options true false) || deferredFunctions (options true false)
    = true /\
  (forall b,
      ~ In (ForInLowering b)
           (snd (runBody (options true false) forInBody (Some false) 100))).
Proof.
  repeat split; try reflexivity; intros b H; exact H.
Qed.

(** The witness of C4: [function* g() {}] with generator support on. *)
Lemma replaced_function_node_witness :
  run (options true false) (emptyGenerator 0) 100 =
  (Normal
     (FunctionDeclaration (mkMeta 101 None) (Some (ident 1 "g")) false
        (params 2) None [] (MkFunctionBody (mkMeta 100 None) [])),
   102, [YieldFactoring emptyBody; GeneratorBuilder emptyBody]).
Proof.
  apply (proj1 (replaced_function_node (options true false) yieldFinder
                  rebuild rebuild rebuild (fun _ => unchanged)
                  (inner (options true false)) (at_ 0)
                  (Some (ident 1 "g")) true (params 2) None [] emptyBody
                  (body := MkFunctionBody (mkMeta 100 None) [])
                  100 (n1 := 101)
                  (l := [YieldFactoring emptyBody; GeneratorBuilder emptyBody])
                  eq_refl eq_refl)).
Defined.

(** C4 as stated fails on [function* g() {}] with generator support on:
    the body is replaced, and the node returned differs from the input
    in its location as well, which is [null]. *)
Lemma replaced_function_node_counterexample :
  exists out n l,
    run (options true false) (emptyGenerator 0) 100 = (Normal out, n, l) /\
    sameTree out (emptyGenerator 0) = false /\
    location (meta (emptyGenerator 0)) = Some (0, 1) /\
    location (meta out) = None.
Proof.
  do 3 eexists. split; [reflexivity |]. repeat split.
Qed.

(** The witness of C8: [function f() { return 1; }]. *)
Lemma function_without_generator_returned_witness :
  run (options true false) plainFunction 100 = (Normal plainFunction, 100, []).
Proof.
  apply (function_without_generator_returned (options true false)
           yieldFinder rebuild rebuild rebuild (fun _ => unchanged)
           eq_refl plainFunction 100 eq_refl).
Defined.

(** C8 as stated fails on [function f() { function* g() {} }] with
    generator support on and deferred support off: [f] is not a
    generator and no suspend expression occurs in it, yet the inner
    recursion lowers [g], and the node returned is a new one. *)
Lemma function_without_generator_returned_counterexample :
  isGeneratorFunction outerFunction = false /\
  containsSuspend outerFunction = false /\
  deferredFunctions (options true false) = false /\
  fst (fst (run (options true false) outerFunction 100)) <>
    Normal outerFunction /\
  exists out n l,
    run (options true false) outerFunction 100 = (Normal out, n, l) /\
    sameTree out outerFunction = false.
Proof.
  repeat split; try reflexivity.
  - vm_compute. discriminate.
  - do 3 eexists. split; reflexivity.
Qed.

(** The witness of C10: [get p() { return 1; }] comes back as it is, and
    [get p() { function* g() {} }] is built anew at its location. *)
Lemma accessor_body_without_flag_witness :
  runBody (options true false) (MkFunctionBody (at_ 3) [emptyGenerator 4])
          None 100 =
    inner (options true false) (MkFunctionBody (at_ 3) [emptyGenerator 4])
          100 /\
  run (options true false) plainGetter 100 = (Normal plainGetter, 100, []) /\
  location (meta outerGetter) = Some (0, 1) /\
  exists body l,
    run (options true false) outerGetter 100 =
    (Normal (GetAccessor (mkMeta 103 (Some (0, 1))) false (ident 1 "p") None
                         [] body), 104, l).
Proof.
  destruct (accessor_body_without_flag (options true false) yieldFinder
              rebuild rebuild rebuild (fun _ => unchanged)
              (inner (options true false))) as (H1 & H2 & _).
  split; [| split; [| split]].
  - apply (H1 eq_refl).
  - apply (H2 (at_ 0) false (ident 1 "p") None []
              (MkFunctionBody (at_ 3) [ReturnStatement (at_ 4)
                                                       (Some (ident 5 "1"))])
              (MkFunctionBody (at_ 3) [ReturnStatement (at_ 4)
                                                       (Some (ident 5 "1"))])
              100 100 []).
    reflexivity.
  - reflexivity.
  - do 2 eexists.
    exact (H2 (at_ 0) false (ident 1 "p") None []
              (MkFunctionBody (at_ 3) [emptyGenerator 4]) _ 100 _ _ eq_refl).
Defined.

(** C10 as stated fails on [get p() { function* g() {} }] with generator
    support on and deferred support off: the body that comes back is
    another body, and the accessor returned is a new node.  The same
    holds of [set p(v) { function* g() {} }]. *)
Lemma accessor_body_without_flag_counterexample :
  deferredFunctions (options true false) = false /\
  fst (fst (run (options true false) outerGetter 100)) <>
    Normal outerGetter /\
  fst (fst (runBody (options true false)
                    (MkFunctionBody (at_ 3) [emptyGenerator 4]) None 100)) <>
    Normal (MkFunctionBody (at_ 3) [emptyGenerator 4]) /\
  (exists out n l,
      run (options true false) outerGetter 100 = (Normal out, n, l) /\
      sameTree out outerGetter = false) /\
  fst (fst (run (options true false) outerSetter 100)) <>
    Normal outerSetter.
Proof.
  repeat split; try reflexivity.
  - vm_compute. discriminate.
  - vm_compute. discriminate.
  - do 3 eexists. split; reflexivity.
  - vm_compute. discriminate.
Qed.

End Runs.

(** ** The decision table of [transformBody_] *)

Section DriverTable.

Variable o : TransformOptions.
Variable finder : FunctionBody -> YieldFinder.
Variables forIn genB asyncB : Pass.
Variable inh : Overrides -> Pass.
Variable super : FunctionBody -> M FunctionBody.

Local Abbreviation transformBody_ :=
  (GeneratorTransformPass.transformBody_ o finder forIn inh genB asyncB
                                         super).

(** Case analysis on the flags the driver tests and on the outcome of the
    inner recursion. *)
Ltac table_cases tree isGenerator n :=
  unfold GeneratorTransformPass.transformBody_,
    GeneratorTransformPass.transformBody_lowering,
    workDue, forInDue, factoringDue, asyncDue, pastEarlyReturns, bind;
  destruct (finder tree) as [y a f]; destruct o as [g d];
  destruct isGenerator as [[|]|]; destruct g, d, y, a, f; simpl;
  try discriminate.

Ltac outcomes :=
  unfold invoke;
  repeat match goal with
         | |- context [match ?x with _ => _ end] =>
             lazymatch type of x with
             | (Completion FunctionBody * nat)%type =>
                 destruct x as [[?|?] ?] eqn:?
             end; simpl
         end.

Lemma ret_after : forall A (c : M A) n,
  (match c n with
   | (Normal a, n1, l1) => (Normal a, n1, l1 ++ [])
   | (Throw e, n1, l1) => (Throw e, n1, l1)
   end) = c n.
Proof.
  intros A c n. destruct (c n) as [[[a|e] n1] l1];
    [rewrite app_nil_r |]; reflexivity.
Qed.

(** X1.  When no pass is due, [transformBody_] gives exactly what the inner
    recursion gave, and invokes nothing; when some pass is due and the inner
    recursion returned, at least one pass is invoked. *)
Theorem passes_invoked_exactly_when_due : forall tree isGenerator n,
  (workDue o isGenerator (finder tree) = false ->
   transformBody_ tree isGenerator n = super tree n) /\
  (workDue o isGenerator (finder tree) = true ->
   forall body n1 l1,
     super tree n = (Normal body, n1, l1) ->
     exists c own,
       snd (transformBody_ tree isGenerator n) = l1 ++ c :: own).
Proof.
  intros tree isGenerator n. split.
  - intros H. rewrite <- (ret_after (super tree) n). revert H.
    table_cases tree isGenerator n; intros _;
      destruct (super tree n) as [[[b|e] n1] l1]; reflexivity.
  - intros H body n1 l1 Hs. revert H.
    table_cases tree isGenerator n; intros _; rewrite Hs; simpl; outcomes;
      do 2 eexists; reflexivity.
Qed.

(** X2.  When the factoring is due (generator support on, and the function
    is a generator or deferred support is on and the finder reports a
    suspend), the body goes through the for-in lowering if the finder
    reports a for-in loop, then through the factoring rewriter, then to the
    generator builder, each pass receiving the result of the one before;
    the async builder is not invoked. *)
Theorem generator_path : forall tree isGenerator n,
  factoringDue o isGenerator (finder tree) = true ->
  transformBody_ tree isGenerator n =
  (body <- super tree ;;
   body <- (if hasForIn (finder tree)
            then invoke (ForInLowering body) (forIn body)
            else ret body) ;;
   body <- invoke (YieldFactoring body)
             (inh YieldExpressionTransformer_methods body) ;;
   invoke (GeneratorBuilder body) (genB body)) n.
Proof.
  intros tree isGenerator n.
  table_cases tree isGenerator n; intros _;
    destruct (super tree n) as [[[b|e] n1] l1]; simpl; try reflexivity;
    outcomes; reflexivity.
Qed.

(** X3.  The async builder is reached exactly on this path.  When the
    finder reports an await and no suspend, the function is not a generator
    and deferred support is on, the body goes through the for-in lowering
    if the finder reports a for-in loop and then to the async builder; it
    is not factored and the generator builder is not invoked.  And whenever
    a call of [transformBody_] invokes the async builder, those conditions
    hold, and the body it is handed is the one the inner recursion
    returned or the one the for-in lowering made of it. *)
Theorem async_path : forall tree isGenerator n,
  (asyncDue o isGenerator (finder tree) = true ->
   hasAwait (finder tree) = true /\
   transformBody_ tree isGenerator n =
   (body <- super tree ;;
    body <- (if hasForIn (finder tree)
             then invoke (ForInLowering body) (forIn body)
             else ret body) ;;
    invoke (AsyncBuilder body) (asyncB body)) n) /\
  (forall body n1 l1,
      super tree n = (Normal body, n1, l1) ->
      exists own,
        snd (transformBody_ tree isGenerator n) = l1 ++ own /\
        forall b,
          In (AsyncBuilder b) own ->
          asyncDue o isGenerator (finder tree) = true /\
          (b = body \/ exists n2, forIn body n1 = (Normal b, n2))).
Proof.
  intros tree isGenerator n. split.
  - table_cases tree isGenerator n; intros _; (split; [reflexivity |]);
      destruct (super tree n) as [[[b|e] n1] l1]; simpl; try reflexivity;
      outcomes; reflexivity.
  - intros body n1 l1 Hs.
    unfold GeneratorTransformPass.transformBody_,
      GeneratorTransformPass.transformBody_lowering, asyncDue,
      pastEarlyReturns, bind.
    rewrite Hs. destruct (finder tree) as [y a f]. destruct o as [g d].
    destruct isGenerator as [[|]|]; destruct g, d, y, a, f; simpl;
      outcomes;
      (eexists; split; [reflexivity |]);
      simpl; intros b0 H;
      repeat (destruct H as [H | H]; try discriminate);
      try contradiction;
      injection H as <-; (split; [reflexivity |]); eauto.
Qed.

(** X4.  With generator support off, a generator, or a body in which the
    finder reports a suspend while deferred support is on, is handed to no
    builder, the async builder included: at most the for-in lowering is
    applied, when deferred support is on and the finder reports a for-in
    loop. *)
Theorem no_builder_without_generator_support : forall tree isGenerator n,
  generators o = false ->
  pastEarlyReturns o isGenerator (finder tree) = true ->
  hasYield (finder tree) || truthy isGenerator = true ->
  transformBody_ tree isGenerator n =
  (body <- super tree ;;
   if hasForIn (finder tree) && deferredFunctions o
   then invoke (ForInLowering body) (forIn body)
   else ret body) n.
Proof.
  intros tree isGenerator n.
  unfold GeneratorTransformPass.transformBody_,
    GeneratorTransformPass.transformBody_lowering, pastEarlyReturns, bind.
  destruct (finder tree) as [y a f]; destruct o as [g d];
    destruct isGenerator as [[|]|]; destruct g, d, y, a, f; simpl;
    intros; try discriminate;
    destruct (super tree n) as [[[b|e] n1] l1]; simpl; try reflexivity;
    outcomes; rewrite ?app_nil_r; reflexivity.
Qed.

(** X5.  Of the passes one call of [transformBody_] invokes after the inner
    recursion: the two builders are never both among them; the generator
    builder is invoked only on a body the factoring rewriter returned in
    the same call; and when the async builder is invoked the factoring
    rewriter is not. *)
Theorem builders_exclusive_and_ordered :
  forall tree isGenerator n body n1 l1,
    super tree n = (Normal body, n1, l1) ->
    exists own,
      snd (transformBody_ tree isGenerator n) = l1 ++ own /\
      (forall b b', In (GeneratorBuilder b) own ->
                    In (AsyncBuilder b') own -> False) /\
      (forall b, In (GeneratorBuilder b) own ->
                 exists b0 n2 n3,
                   In (YieldFactoring b0) own /\
                   inh YieldExpressionTransformer_methods b0 n2 =
                     (Normal b, n3)) /\
      (forall b b', In (AsyncBuilder b) own ->
                    In (YieldFactoring b') own -> False).
Proof.
  intros tree isGenerator n body n1 l1 Hs.
  unfold GeneratorTransformPass.transformBody_,
    GeneratorTransformPass.transformBody_lowering, bind.
  rewrite Hs. destruct (finder tree) as [y a f]. destruct o as [g d].
  destruct isGenerator as [[|]|]; destruct g, d, y, a, f; simpl;
    outcomes;
    (eexists; split; [reflexivity |]);
    (split; [| split]); simpl; intros;
    repeat match goal with
           | H : _ \/ _ |- _ => destruct H
           | H : False |- _ => contradiction
           | H : ?c1 _ = ?c2 _ |- _ =>
               first [discriminate H | injection H as <-]
           end;
    try contradiction;
    try (do 3 eexists; split; [| eassumption]; simpl; tauto).
Qed.

End DriverTable.

(** ** Function nodes around an unlowered body *)

Section FlagAndIdentity.

Variable o : TransformOptions.
Variable finder : FunctionBody -> YieldFinder.
Variables forIn genB asyncB : Pass.
Variable inh : Overrides -> Pass.

(** X6.  With generator support off, a generator function whose body the
    inner recursion replaced (a nested function was lowered) is returned as
    a new node whose generator flag is false although no pass was applied
    to its own body: the body of the new node is the one the inner
    recursion returned, and the passes invoked are those of the inner
    recursion. *)
Theorem generator_flag_cleared_without_lowering :
  forall (super : FunctionBody -> M FunctionBody)
         m name formalParameterList typeAnnotation annotations functionBody
         body n n1 l,
    generators o = false ->
    hasForIn (finder functionBody) = false \/ deferredFunctions o = false ->
    super functionBody n = (Normal body, n1, l) ->
    sameBody body functionBody = false ->
    GeneratorTransformPass.transformFunctionDeclaration
      o finder forIn inh genB asyncB super
      (FunctionDeclaration m name true formalParameterList typeAnnotation
                           annotations functionBody) n =
    (Normal (FunctionDeclaration (mkMeta n1 None) name false
                                 formalParameterList typeAnnotation
                                 annotations body),
     S n1, l).
Proof.
  intros super m name fpl ta ann fb body n n1 l Hg Hf Hs Hb.
  unfold GeneratorTransformPass.transformFunctionDeclaration,
    GeneratorTransformPass.transformFunction_,
    GeneratorTransformPass.transformBody_,
    GeneratorTransformPass.transformBody_lowering, bind.
  rewrite Hs, Hg. simpl.
  destruct (finder fb) as [y a f]. simpl in *.
  assert (Hgate : f && deferredFunctions o = false)
    by (destruct Hf as [-> | ->]; [reflexivity | apply andb_false_r]).
  rewrite Hgate. replace (y || true) with true by (destruct y; reflexivity).
  simpl. rewrite Hb. simpl. rewrite !app_nil_r. reflexivity.
Qed.

Section BothOff.

Hypothesis generators_off : generators o = false.
Hypothesis deferred_off : deferredFunctions o = false.

Local Abbreviation transformAny :=
  (GeneratorTransformPass.transformAny o finder forIn inh genB asyncB).

Lemma transformList_kept :
  forall A (same : A -> A -> bool) (f : A -> M A) (l : list A),
    (forall x, same x x = true) ->
    list_all (fun x => forall n, f x n = (Normal x, n, [])) l ->
    forall n,
      GeneratorTransformPass.transformList same f l n =
      (Normal (l, false), n, []).
Proof.
  intros A same f l Hsame Hall. induction Hall as [| x Hx l Hall IH];
    intros n.
  - reflexivity.
  - simpl. unfold bind. rewrite (Hx n), (IH n). simpl.
    rewrite Hsame. reflexivity.
Qed.

Lemma transformOptional_kept :
  forall (f : ParseTree -> M ParseTree) (e : option ParseTree),
    option_all (fun x => forall n, f x n = (Normal x, n, [])) e ->
    forall n,
      GeneratorTransformPass.transformOptional f e n = (Normal e, n, []).
Proof.
  intros f e Hall. destruct Hall as [x Hx |]; intros n.
  - simpl. unfold bind. rewrite (Hx n). reflexivity.
  - reflexivity.
Qed.

Lemma body_kept_when_both_off :
  forall (super : FunctionBody -> M FunctionBody) tree isGenerator n,
    super tree n = (Normal tree, n, []) ->
    GeneratorTransformPass.transformBody_ o finder forIn inh genB asyncB
      super tree isGenerator n = (Normal tree, n, []).
Proof.
  intros super tree isGenerator n Hs.
  unfold GeneratorTransformPass.transformBody_,
    GeneratorTransformPass.transformBody_lowering, bind.
  rewrite Hs, generators_off, deferred_off.
  destruct (finder tree) as [y a f].
  destruct isGenerator as [[|]|]; destruct y, a, f; reflexivity.
Qed.

Lemma traversal_kept_when_both_off :
  (forall tree n, transformAny tree n = (Normal tree, n, [])) /\
  (forall tree n,
      GeneratorTransformPass.transformVariableDeclarationList
        o finder forIn inh genB asyncB tree n = (Normal tree, n, [])) /\
  (forall tree n,
      GeneratorTransformPass.transformVariableDeclaration
        o finder forIn inh genB asyncB tree n = (Normal tree, n, [])) /\
  (forall tree n,
      GeneratorTransformPass.transformFunctionBody
        o finder forIn inh genB asyncB tree n = (Normal tree, n, [])).
Proof.
  assert (Hst : forall x, sameTree x x = true)
    by (intros; apply Nat.eqb_refl).
  assert (Hsd : forall x, GeneratorTransformPass.sameDeclaration x x = true)
    by (intros [m l t i]; apply Nat.eqb_refl).
  assert (Hso : forall x, GeneratorTransformPass.sameOptional x x = true)
    by (intros [x|]; [apply Hst | reflexivity]).
  assert (Hsl : forall x,
             GeneratorTransformPass.sameDeclarationList x x = true)
    by (intros [m k l]; apply Nat.eqb_refl).
  assert (Hsb : forall x, sameBody x x = true)
    by (intros; apply Nat.eqb_refl).
  apply ParseTree_mutind; intros; simpl;
    repeat match goal with
           | IH : list_all _ ?l |- context [GeneratorTransformPass.transformList sameTree _ ?l] =>
               pose proof (transformList_kept _ _ Hst IH); clear IH
           | IH : list_all _ ?l |- context [GeneratorTransformPass.transformList GeneratorTransformPass.sameDeclaration _ ?l] =>
               pose proof (transformList_kept _ _ Hsd IH); clear IH
           | IH : option_all _ ?e |- context [GeneratorTransformPass.transformOptional _ ?e] =>
               pose proof (transformOptional_kept _ IH); clear IH
           end;
    try (unfold GeneratorTransformPass.transformFunctionDeclaration,
           GeneratorTransformPass.transformFunctionExpression,
           GeneratorTransformPass.transformFunction_,
           GeneratorTransformPass.transformGetAccessor,
           GeneratorTransformPass.transformSetAccessor, bind;
         rewrite body_kept_when_both_off by auto;
         simpl; rewrite Hsb; reflexivity);
    unfold bind;
    repeat (match goal with
            | H : forall n, _ = (Normal _, n, []) |- _ => rewrite H
            end; simpl);
    rewrite ?Hst, ?Hso, ?Hsl; simpl; reflexivity.
Qed.

(** X7.  With generator support and deferred support both off, the driver
    returns every tree as the identical node, allocates nothing and invokes
    no pass, whatever the tree holds: generators, suspend expressions,
    awaits and for-in loops included. *)
Theorem driver_identity_when_both_off : forall tree n,
  transformAny tree n = (Normal tree, n, []).
Proof. exact (proj1 traversal_kept_when_both_off). Qed.

End BothOff.

End FlagAndIdentity.

(** ** Shapes of the rewriter's input and output *)

Section RewriterShapes.

Lemma yield_assign_parts : forall m L op R,
  isYieldAssign (BinaryOperator m L op R) = true ->
  op = EQUAL /\ isYieldExpression R = true.
Proof.
  intros m L op R H. unfold isYieldAssign in H.
  apply andb_true_iff in H. destruct H as [Ho Hr].
  apply String.eqb_eq in Ho. auto.
Qed.

Lemma bare_yield_statement_kept : forall m Y k,
  isYieldExpression Y = true ->
  transformExpressionStatement (ExpressionStatement m Y) k =
  (Normal (ExpressionStatement m Y), k, []).
Proof.
  intros m Y k H. destruct Y; try discriminate. reflexivity.
Qed.

(** X8.  A statement of one of the three shapes is rewritten, without an
    exception, into a new block of two statements: the first is an
    expression statement that holds a suspend expression alone, the second
    is of the kind of the input, and the rewriter's methods return each of
    the two as it is: the output is not factored again. *)
Theorem factored_output_in_normal_form : forall tree c n,
  overridden YieldExpressionTransformer_methods tree = Some c ->
  factorable tree = true ->
  exists a Y s2 n' c2,
    c n = (Normal (Block (mkMeta a None)
                         [ExpressionStatement (mkMeta n None) Y; s2]),
           n', []) /\
    isYieldExpression Y = true /\
    sameStatementKind s2 tree = true /\
    (forall k,
        transformExpressionStatement (ExpressionStatement (mkMeta n None) Y) k =
        (Normal (ExpressionStatement (mkMeta n None) Y), k, [])) /\
    overridden YieldExpressionTransformer_methods s2 = Some c2 /\
    (forall k, c2 k = (Normal s2, k, [])).
Proof.
  intros tree c n Hc Hf.
  destruct tree; simpl in Hc; try discriminate; injection Hc as <-;
    simpl in Hf.
  - unfold transformExpressionStatement.
    destruct (stripParens tree) eqn:Hs; try discriminate.
    destruct expressions as [|ex0 rest]; [discriminate |].
    destruct ex0; try discriminate.
    simpl isBinaryOperator in Hf. rewrite andb_true_l in Hf. rewrite Hf.
    destruct (yield_assign_parts _ _ _ _ Hf) as [_ Hy].
    do 5 eexists. split; [reflexivity |].
    split; [exact Hy |]. split; [reflexivity |].
    split; [intros k; apply bare_yield_statement_kept; exact Hy |].
    split; [reflexivity |]. intros k. reflexivity.
  - destruct declarations as [ml kind [|tdd0 rest]]; [discriminate |].
    destruct tdd0 as [md lv ta [i|]]; [| discriminate].
    unfold transformVariableStatement. rewrite Hf. simpl in Hf.
    do 5 eexists. split; [reflexivity |].
    split; [exact Hf |]. split; [reflexivity |].
    split; [intros k; apply bare_yield_statement_kept; exact Hf |].
    split; [reflexivity |]. intros k. reflexivity.
  - destruct expression as [e|]; [| discriminate].
    unfold transformReturnStatement. rewrite Hf.
    do 5 eexists. split; [reflexivity |].
    split; [exact Hf |]. split; [reflexivity |].
    split; [intros k; apply bare_yield_statement_kept; exact Hf |].
    split; [reflexivity |]. intros k. reflexivity.
Qed.

(** The witness of X8: [(x = yield e, a, b);]. *)
Lemma factored_output_in_normal_form_witness :
  exists a Y s2 n' c2,
    transformExpressionStatement StandIn.commaYield 100 =
      (Normal (Block (mkMeta a None)
                     [ExpressionStatement (mkMeta 100 None) Y; s2]),
       n', []) /\
    isYieldExpression Y = true /\
    sameStatementKind s2 StandIn.commaYield = true /\
    (forall k,
        transformExpressionStatement (ExpressionStatement (mkMeta 100 None) Y) k =
        (Normal (ExpressionStatement (mkMeta 100 None) Y), k, [])) /\
    overridden YieldExpressionTransformer_methods s2 = Some c2 /\
    (forall k, c2 k = (Normal s2, k, [])).
Proof.
  apply (factored_output_in_normal_form StandIn.commaYield); reflexivity.
Defined.

Lemma stripParens_parenthesised : forall ms e,
  stripParens (parenthesised ms e) = stripParens e.
Proof.
  induction ms as [| m ms IH]; intros e; simpl; [reflexivity | apply IH].
Qed.

(** X9.  Parentheses are looked through in an expression statement only,
    and there to any depth.  An expression statement whose expression is a
    comma expression that starts with a suspend assignment, inside any
    number of parentheses, is factored into the block of the statement
    without them, in which no parentheses appear; a return statement or a
    first declarator whose suspend expression stands in parentheses is
    returned as it is. *)
Theorem parentheses_stripped_in_expression_statements_only :
  (forall ms m mc mb L op Y rest n,
      isYieldAssign (BinaryOperator mb L op Y) = true ->
      transformExpressionStatement
        (ExpressionStatement m
           (parenthesised ms
              (CommaExpression mc (BinaryOperator mb L op Y :: rest)))) n =
      (Normal
         (Block (mkMeta (6 + n) None)
            [ExpressionStatement (mkMeta n None) Y;
             ExpressionStatement (mkMeta (5 + n) None)
               (CommaExpression (mkMeta (4 + n) None)
                  (BinaryOperator (mkMeta (3 + n) None) L EQUAL
                                  (resumedSlot (1 + n))
                   :: rest))]),
       7 + n, [])) /\
  (forall m mp Y n,
      let tree := ReturnStatement m (Some (ParenExpression mp Y)) in
      transformReturnStatement tree n = (Normal tree, n, [])) /\
  (forall m ml declarationType md lvalue typeAnnotation mp Y rest n,
      let tree :=
        VariableStatement m
          (MkVariableDeclarationList ml declarationType
             (MkVariableDeclaration md lvalue typeAnnotation
                                    (Some (ParenExpression mp Y)) :: rest)) in
      transformVariableStatement tree n = (Normal tree, n, [])).
Proof.
  split; [| split; intros; reflexivity].
  intros ms m mc mb L op Y rest n H.
  unfold transformExpressionStatement.
  rewrite stripParens_parenthesised. cbn [stripParens].
  cbv beta iota zeta. rewrite H. reflexivity.
Qed.

(** The witness of X9: [((x = yield e, a));] and [return (yield e);]. *)
Lemma parentheses_stripped_in_expression_statements_only_witness :
  transformExpressionStatement
    (ExpressionStatement (StandIn.at_ 0)
       (ParenExpression (StandIn.at_ 1)
          (ParenExpression (StandIn.at_ 2)
             (CommaExpression (StandIn.at_ 3)
                [BinaryOperator (StandIn.at_ 4) (StandIn.ident 5 "x") EQUAL
                                (StandIn.yield_ 6 "e");
                 StandIn.ident 8 "a"])))) 100 =
    (Normal
       (Block (mkMeta 106 None)
          [ExpressionStatement (mkMeta 100 None) (StandIn.yield_ 6 "e");
           ExpressionStatement (mkMeta 105 None)
             (CommaExpression (mkMeta 104 None)
                [BinaryOperator (mkMeta 103 None) (StandIn.ident 5 "x") EQUAL
                                (resumedSlot 101);
                 StandIn.ident 8 "a"])]),
     107, []) /\
  transformReturnStatement StandIn.returnParenYield 100 =
    (Normal StandIn.returnParenYield, 100, []).
Proof.
  destruct parentheses_stripped_in_expression_statements_only
    as (H1 & H2 & _).
  split.
  - apply (H1 [StandIn.at_ 1; StandIn.at_ 2]). reflexivity.
  - apply H2.
Defined.

(** X10.  Where the list whose element 0 the rewriter reads is empty, the
    read of [ex[0].type], or of [tdd[0].initialiser], raises a [TypeError]:
    the statement is neither returned nor factored, and nothing is
    allocated. *)
Theorem empty_list_raises_type_error :
  (forall m e mc n,
      stripParens e = CommaExpression mc [] ->
      transformExpressionStatement (ExpressionStatement m e) n =
      (Throw TypeError, n, [])) /\
  (forall m ml declarationType n,
      transformVariableStatement
        (VariableStatement m (MkVariableDeclarationList ml declarationType []))
        n =
      (Throw TypeError, n, [])).
Proof.
  split.
  - intros m e mc n He. unfold transformExpressionStatement. rewrite He.
    reflexivity.
  - reflexivity.
Qed.

(** The witness of X10: an expression statement around [()] with no
    expression inside, and a declaration list without a declarator. *)
Lemma empty_list_raises_type_error_witness :
  transformExpressionStatement
    (ExpressionStatement (StandIn.at_ 0)
       (ParenExpression (StandIn.at_ 1) (CommaExpression (StandIn.at_ 2) [])))
    100 = (Throw TypeError, 100, []) /\
  transformVariableStatement
    (VariableStatement (StandIn.at_ 0)
       (MkVariableDeclarationList (StandIn.at_ 1) VAR [])) 100 =
    (Throw TypeError, 100, []).
Proof.
  destruct empty_list_raises_type_error as (H1 & H2).
  split.
  - apply (H1 _ _ (StandIn.at_ 2)). reflexivity.
  - apply H2.
Defined.

(** C2, amended.  An expression statement whose expression, inside any
    number of parentheses, is a comma expression that starts with the plain
    assignment of a suspend expression to a target [L], as in
    [x = yield e, a;], becomes a block of two statements: an expression
    statement holding the very same suspend expression, then the comma
    expression with the assignment of the resumed-value slot to [L] in
    first place.  An expression statement whose expression is an assignment
    alone, as in [x = yield e;], is returned as it is. *)
Theorem yield_assignment_factored_at_head_of_comma :
  (forall ms m mc mb L op Y rest n,
      isYieldAssign (BinaryOperator mb L op Y) = true ->
      transformExpressionStatement
        (ExpressionStatement m
           (parenthesised ms
              (CommaExpression mc (BinaryOperator mb L op Y :: rest)))) n =
      (Normal
         (Block (mkMeta (6 + n) None)
            [ExpressionStatement (mkMeta n None) Y;
             ExpressionStatement (mkMeta (5 + n) None)
               (CommaExpression (mkMeta (4 + n) None)
                  (BinaryOperator (mkMeta (3 + n) None) L EQUAL
                                  (resumedSlot (1 + n))
                   :: rest))]),
       7 + n, [])) /\
  (forall ms m mb L op R n,
      let tree :=
        ExpressionStatement m (parenthesised ms (BinaryOperator mb L op R)) in
      transformExpressionStatement tree n = (Normal tree, n, [])).
Proof.
  split.
  - intros ms m mc mb L op Y rest n H.
    unfold transformExpressionStatement.
    rewrite stripParens_parenthesised. cbn [stripParens].
    cbv beta iota zeta. rewrite H. reflexivity.
  - intros ms m mb L op R n. cbv zeta.
    unfold transformExpressionStatement.
    rewrite stripParens_parenthesised. reflexivity.
Qed.

(** The witness of C2: [(x = yield e, a, b);] and [x = yield e;]. *)
Lemma yield_assignment_factored_at_head_of_comma_witness :
  transformExpressionStatement StandIn.commaYield 100 =
    (Normal
       (Block (mkMeta 106 None)
          [ExpressionStatement (mkMeta 100 None) (StandIn.yield_ 5 "e");
           ExpressionStatement (mkMeta 105 None)
             (CommaExpression (mkMeta 104 None)
                [BinaryOperator (mkMeta 103 None) (StandIn.ident 4 "x") EQUAL
                                (resumedSlot 101);
                 StandIn.ident 7 "a"; StandIn.ident 8 "b"])]),
     107, []) /\
  transformExpressionStatement StandIn.assignYield 100 =
    (Normal StandIn.assignYield, 100, []).
Proof.
  destruct yield_assignment_factored_at_head_of_comma as (H1 & H2).
  split.
  - apply (H1 [StandIn.at_ 1]). reflexivity.
  - apply (H2 []).
Defined.

(** C2 as stated fails on [x = yield e;]: the expression is the plain
    assignment of a suspend expression, and the rewriter returns the
    statement itself, which is no block. *)
Lemma yield_assignment_factored_at_head_of_comma_counterexample :
  isYieldAssign
    (BinaryOperator (StandIn.at_ 1) (StandIn.ident 2 "x") EQUAL
                    (StandIn.yield_ 3 "e")) = true /\
  transformExpressionStatement StandIn.assignYield 100 =
    (Normal StandIn.assignYield, 100, []) /\
  forall m statements,
    fst (fst (transformExpressionStatement StandIn.assignYield 100)) <>
    Normal (Block m statements).
Proof.
  split; [reflexivity |]. split; [reflexivity |].
  intros m statements. vm_compute. discriminate.
Qed.

End RewriterShapes.

(** ** The decision table on concrete bodies *)

Section TableRuns.

Import StandIn.

Local Abbreviation inner o :=
  (GeneratorTransformPass.transformFunctionBody o yieldFinder rebuild
     (fun _ => unchanged) rebuild rebuild).

(** The witness of X1: the body of [function f() { for (k in o) {} }] with
    deferred support off, and the body of [function* g() {}] with generator
    support on. *)
Lemma passes_invoked_exactly_when_due_witness :
  runBody (options true false) forInBody (Some false) 100 =
    (Normal forInBody, 100, []) /\
  exists c own,
    snd (runBody (options true false) emptyBody (Some true) 100) =
    [] ++ c :: own.
Proof.
  split.
  - unfold runBody.
    rewrite (proj1 (passes_invoked_exactly_when_due (options true false)
                      yieldFinder rebuild rebuild rebuild (fun _ => unchanged)
                      (inner (options true false)) forInBody (Some false) 100)
                   eq_refl).
    reflexivity.
  - apply (proj2 (passes_invoked_exactly_when_due (options true false)
                    yieldFinder rebuild rebuild rebuild (fun _ => unchanged)
                    (inner (options true false)) emptyBody (Some true) 100)
                 eq_refl emptyBody 100 []).
    reflexivity.
Defined.

(** The witness of X2: the body of
    [function* g() { var x = yield e; return yield x; }]. *)
Lemma generator_path_witness :
  runBody (options true false) yieldingBody (Some true) 100 =
  (Normal (MkFunctionBody (mkMeta 100 None) (bodyStatements yieldingBody)),
   101, [YieldFactoring yieldingBody; GeneratorBuilder yieldingBody]).
Proof.
  unfold runBody.
  rewrite (generator_path (options true false) yieldFinder rebuild rebuild
             rebuild (fun _ => unchanged) (inner (options true false))
             yieldingBody (Some true) 100 eq_refl).
  reflexivity.
Defined.

(** The witness of X3: the body of
    [function f() { for (k in o) {} await x; }] with deferred support on. *)
Lemma async_path_witness :
  hasAwait (yieldFinder awaitForInBody) = true /\
  runBody (options true true) awaitForInBody (Some false) 100 =
  (Normal (MkFunctionBody (mkMeta 101 None) (bodyStatements awaitForInBody)),
   102,
   [ForInLowering awaitForInBody;
    AsyncBuilder (MkFunctionBody (mkMeta 100 None)
                                 (bodyStatements awaitForInBody))]) /\
  exists own,
    snd (runBody (options true true) awaitForInBody (Some false) 100) =
      [] ++ own /\
    forall b,
      In (AsyncBuilder b) own ->
      asyncDue (options true true) (Some false) (yieldFinder awaitForInBody)
        = true /\
      (b = awaitForInBody \/
       exists n2, rebuild awaitForInBody 100 = (Normal b, n2)).
Proof.
  destruct (async_path (options true true) yieldFinder rebuild rebuild
              rebuild (fun _ => unchanged) (inner (options true true))
              awaitForInBody (Some false) 100) as [Hpath Honly].
  destruct (Hpath eq_refl) as [Ha Hr].
  split; [exact Ha |]. split.
  - unfold runBody. rewrite Hr. reflexivity.
  - apply (Honly awaitForInBody 100 []). reflexivity.
Defined.

(** The witness of X4: the body of
    [function* g() { var x = yield e; return yield x; }] with generator
    support off and deferred support on. *)
Lemma no_builder_without_generator_support_witness :
  runBody (options false true) yieldingBody (Some true) 100 =
  (Normal yieldingBody, 100, []).
Proof.
  unfold runBody.
  rewrite (no_builder_without_generator_support (options false true)
             yieldFinder rebuild rebuild rebuild (fun _ => unchanged)
             (inner (options false true)) yieldingBody (Some true) 100
             eq_refl eq_refl eq_refl).
  reflexivity.
Defined.

(** The witness of X5: the body of
    [function* g() { var x = yield e; return yield x; }]. *)
Lemma builders_exclusive_and_ordered_witness :
  exists own,
    snd (runBody (options true true) yieldingBody (Some true) 100) =
      [] ++ own /\
    (forall b b', In (GeneratorBuilder b) own ->
                  In (AsyncBuilder b') own -> False) /\
    (forall b, In (GeneratorBuilder b) own ->
               exists b0 n2 n3,
                 In (YieldFactoring b0) own /\
                 unchanged b0 n2 = (Normal b, n3)) /\
    (forall b b', In (AsyncBuilder b) own ->
                  In (YieldFactoring b') own -> False).
Proof.
  apply (builders_exclusive_and_ordered (options true true) yieldFinder
           rebuild rebuild rebuild (fun _ => unchanged)
           (inner (options true true)) yieldingBody (Some true) 100
           (body := yieldingBody) (n1 := 100)).
  reflexivity.
Defined.

(** The witness of X6: [function* f() { function h() { await x; } }] with
    generator support off and deferred support on.  The inner recursion
    lowers [h]; [f] comes back without its generator flag around the body
    the inner recursion built, and the only pass invoked is the async
    builder on the body of [h]. *)
Lemma generator_flag_cleared_without_lowering_witness :
  exists body,
    run (options false true)
        (FunctionDeclaration (at_ 0) (Some (ident 1 "f")) true (params 2)
                             None [] generatorAroundAwaitBody) 100 =
    (Normal (FunctionDeclaration (mkMeta 103 None) (Some (ident 1 "f")) false
                                 (params 2) None [] body),
     104,
     [AsyncBuilder (MkFunctionBody (at_ 7)
                      [AwaitStatement (at_ 8) None (ident 9 "x")])]).
Proof.
  eexists.
  exact (generator_flag_cleared_without_lowering (options false true)
           yieldFinder rebuild rebuild rebuild (fun _ => unchanged)
           (inner (options false true)) (at_ 0) (Some (ident 1 "f"))
           (params 2) None [] generatorAroundAwaitBody 100
           eq_refl (or_introl eq_refl) eq_refl eq_refl).
Defined.

(** The witness of X7:
    [function* g() { var x = yield e; return yield x; }] with both supports
    off. *)
Lemma driver_identity_when_both_off_witness :
  run (options false false) yieldingGenerator 100 =
  (Normal yieldingGenerator, 100, []).
Proof.
  apply (driver_identity_when_both_off (options false false) yieldFinder
           rebuild rebuild rebuild (fun _ => unchanged) eq_refl eq_refl).
Defined.

End TableRuns.
